(** * Agent-Connector: the Data Flow API client

    A shallow embedding of [backend/scripts/dataflow_client.py]: the request
    dataclasses, the four chat adapters of [DataFlowClient], the blocking
    request, the streaming request with its server-sent-event decoder, and
    the error envelope built by the two [except] handlers.

    Conventions of the embedding.
    - Python [str] values that the client only copies around (field names,
      URLs, messages) are Rocq [string]s.
    - Python [bytes] are Rocq [string]s as well, one character per byte.
    - The text obtained from [bytes.decode('utf-8')] is a list of Unicode
      code points ([list N]); [str.startswith], slicing and [str.strip] of
      the decoder work on code points.
    - Mutable objects the caller can hold a reference to (a payload [dict],
      a [DifyRequest], an [OpenAIRequest]) live in a store indexed by
      locations; the values stored inside a dict are immutable trees.
    - The [requests] library and the network are the environment: what
      [session.post] answers is an argument of the model. *)

From Stdlib Require Import Ascii String ZArith NArith QArith Lia.
From stdpp Require Import gmap strings list fin_maps pretty.

Open Scope string_scope.

(** ** Python values *)

(** JSON-like Python values, as stored inside dicts and produced by
    [asdict].  A [float] is carried as a rational: the client copies
    floats and never computes with them. *)
#[warnings="-register-all"]
Inductive pyval : Type :=
  | PNone
  | PBool (b : bool)
  | PInt (z : Z)
  | PFloat (q : Q)
  | PStr (s : string)
  | PList (l : list pyval)
  | PDict (d : gmap string pyval).

(** [bool(v)]: the truth value Python's [if] and [or] test. *)
Definition truthy (v : pyval) : bool :=
  match v with
  | PNone => false
  | PBool b => b
  | PInt z => negb (z =? 0)%Z
  | PFloat q => negb (Qnum q =? 0)%Z
  | PStr s => negb (String.eqb s "")
  | PList l => negb (Nat.eqb (length l) 0)
  | PDict d => negb (Nat.eqb (size d) 0)
  end.

(** [a or b]: the first operand when it is truthy, otherwise the second. *)
Definition py_or (a b : pyval) : pyval := if truthy a then a else b.

(** [v == s] for a string literal [s]. *)
Definition py_eq_str (v : pyval) (s : string) : bool :=
  match v with
  | PStr s' => String.eqb s' s
  | _ => false
  end.

(** [v == True]: besides [True] itself Python equates [1] and [1.0] with
    it. *)
Definition py_eq_True (v : pyval) : bool :=
  match v with
  | PBool b => b
  | PInt z => (z =? 1)%Z
  | PFloat q => Qeq_bool q 1
  | _ => false
  end.

(** [d.get(k, dflt)]. *)
Definition dict_get (d : gmap string pyval) (k : string) (dflt : pyval) : pyval :=
  default dflt (d !! k).

(** ** Text: decoded strings as code points *)

Module Text.

Abbreviation text := (list N).

(** The code points of an ASCII literal. *)
Definition of_string (s : string) : text :=
  map N_of_ascii (list_ascii_of_string s).

Fixpoint eqb (s t : text) : bool :=
  match s, t with
  | [], [] => true
  | a :: s', b :: t' => (a =? b)%N && eqb s' t'
  | _, _ => false
  end.

(** [s.startswith(p)]. *)
Fixpoint startswith (p s : text) : bool :=
  match p, s with
  | [], _ => true
  | a :: p', b :: s' => (a =? b)%N && startswith p' s'
  | _ :: _, [] => false
  end.

(** [c.isspace()] for one code point: the characters [str.strip()]
    removes when called without argument. *)
Definition isspace (c : N) : bool :=
  ((9 <=? c) && (c <=? 13) || (28 <=? c) && (c <=? 32)
   || (c =? 133) || (c =? 160) || (c =? 5760)
   || (8192 <=? c) && (c <=? 8202)
   || (c =? 8232) || (c =? 8233) || (c =? 8239) || (c =? 8287)
   || (c =? 12288))%N.

Fixpoint lstrip (s : text) : text :=
  match s with
  | c :: s' => if isspace c then lstrip s' else s
  | [] => []
  end.

Definition rstrip (s : text) : text := rev (lstrip (rev s)).

(** [s.strip()]. *)
Definition strip (s : text) : text := rstrip (lstrip s).

End Text.

(** ** UTF-8 *)

Module Utf8.

Definition bytes_to_list (b : string) : list N :=
  map N_of_ascii (list_ascii_of_string b).

(** A continuation byte [10xxxxxx]. *)
Definition is_cont (b : N) : bool := ((128 <=? b) && (b <? 192))%N.

(** Strict UTF-8, as [bytes.decode('utf-8')] applies it: shortest
    encodings only, no surrogates, nothing above U+10FFFF.  [None] is
    [UnicodeDecodeError]. *)
Fixpoint decode_list (bs : list N) : option (list N) :=
  match bs with
  | [] => Some []
  | b0 :: r0 =>
    if (b0 <? 128)%N then cons b0 <$> decode_list r0
    else if ((194 <=? b0) && (b0 <? 224))%N then
      match r0 with
      | b1 :: r1 =>
        if is_cont b1
        then cons ((b0 - 192) * 64 + (b1 - 128))%N <$> decode_list r1
        else None
      | _ => None
      end
    else if ((224 <=? b0) && (b0 <? 240))%N then
      match r0 with
      | b1 :: b2 :: r2 =>
        let cp := ((b0 - 224) * 4096 + (b1 - 128) * 64 + (b2 - 128))%N in
        if is_cont b1 && is_cont b2 && (2048 <=? cp)%N
           && negb ((55296 <=? cp) && (cp <? 57344))%N
        then cons cp <$> decode_list r2
        else None
      | _ => None
      end
    else if ((240 <=? b0) && (b0 <? 245))%N then
      match r0 with
      | b1 :: b2 :: b3 :: r3 =>
        let cp := ((b0 - 240) * 262144 + (b1 - 128) * 4096
                   + (b2 - 128) * 64 + (b3 - 128))%N in
        if is_cont b1 && is_cont b2 && is_cont b3
           && (65536 <=? cp)%N && (cp <? 1114112)%N
        then cons cp <$> decode_list r3
        else None
      | _ => None
      end
    else None
  end.

(** [line.decode('utf-8')]. *)
Definition decode (b : string) : option (list N) :=
  decode_list (bytes_to_list b).

End Utf8.

(** ** The [requests] library, as far as the client sees it *)

(** Exception classes.  The first five are subclasses of
    [requests.exceptions.RequestException]; [RequestsJSONDecodeError] is
    [requests.exceptions.JSONDecodeError], which [Response.json()] raises
    since requests 2.27. *)
Inductive exn_class : Type :=
  | ConnectionError
  | Timeout
  | HTTPError
  | ChunkedEncodingError
  | RequestsJSONDecodeError
  | UnicodeDecodeError
  | ValueError
  | TypeError.

(** [isinstance(e, requests.exceptions.RequestException)]. *)
Definition is_RequestException (c : exn_class) : bool :=
  match c with
  | ConnectionError | Timeout | HTTPError | ChunkedEncodingError
  | RequestsJSONDecodeError => true
  | UnicodeDecodeError | ValueError | TypeError => false
  end.

(** A raised exception: its class, [str(e)], and for a RequestException
    the [status_code] of the response attached as [e.response] ([None]
    when [e.response] is [None]).  The status code is the only attribute
    of the attached response the client reads. *)
Record exn : Type := Exn {
  exn_cls : exn_class;
  exn_message : string;
  exn_response : option Z
}.

(** A value returned or an exception raised. *)
Inductive result (A : Type) : Type :=
  | Ret (a : A)
  | Exc (e : exn).
Arguments Ret {A} a.
Arguments Exc {A} e.

(** What the client can observe of a [requests.Response]: the status
    line, what [response.json()] does, and what [response.iter_lines()]
    delivers: the byte lines in order, then the end of the body
    ([None]) or an exception raised while reading on ([Some e]). *)
Record Response : Type := {
  status_code : Z;
  reason : string;
  resp_url : string;
  json_result : result pyval;
  lines : list string;
  lines_error : option exn
}.

(** What [session.post] does: raise or hand back a response. *)
Inductive post_outcome : Type :=
  | PostRaises (e : exn)
  | PostReturns (r : Response).

(** [Response.raise_for_status()]: [Some e] when it raises.  It raises
    [HTTPError], with the response attached, for the 4xx and 5xx status
    codes and for no other. *)
Definition raise_for_status (r : Response) : option exn :=
  if ((400 <=? status_code r) && (status_code r <? 500))%Z then
    Some (Exn HTTPError
            (pretty (status_code r) +:+ " Client Error: " +:+ reason r
             +:+ " for url: " +:+ resp_url r)
            (Some (status_code r)))
  else if ((500 <=? status_code r) && (status_code r <? 600))%Z then
    Some (Exn HTTPError
            (pretty (status_code r) +:+ " Server Error: " +:+ reason r
             +:+ " for url: " +:+ resp_url r)
            (Some (status_code r)))
  else None.

(** ** Generators *)

(** The behaviour of a Python generator that is run to its end: it
    yields, then returns ([GStop]) or lets an exception out ([GRaise]). *)
Inductive gen (A : Type) : Type :=
  | GYield (a : A) (k : gen A)
  | GStop
  | GRaise (e : exn).
Arguments GYield {A} a k.
Arguments GStop {A}.
Arguments GRaise {A} e.

(** The values yielded, in order. *)
Fixpoint yielded {A} (g : gen A) : list A :=
  match g with
  | GYield a k => a :: yielded k
  | GStop | GRaise _ => []
  end.

(** The exception that escapes the generator, if any. *)
Fixpoint escaped {A} (g : gen A) : option exn :=
  match g with
  | GYield _ k => escaped k
  | GStop => None
  | GRaise e => Some e
  end.


(** ** The store *)

Abbreviation loc := positive.

(** [ChatMessage]. *)
Record ChatMessage : Type := {
  role : string;
  content : string
}.

(** [OpenAIRequest]; the defaults of the dataclass are in
    [OpenAIRequest_new]. *)
Record OpenAIRequest : Type := {
  messages : list ChatMessage;
  model : string;
  max_tokens : option Z;
  temperature : Q;
  stream : bool
}.

(** [DifyRequest].  [inputs] is [None] or a reference to a dict. *)
Record DifyRequest : Type := {
  query : string;
  user : string;
  conversation_id : string;
  inputs : option loc;
  response_mode : string
}.

(** The objects of the store. *)
Inductive obj : Type :=
  | ODict (d : gmap string pyval)
  | ODifyRequest (r : DifyRequest)
  | OOpenAIRequest (r : OpenAIRequest).

Abbreviation heap := (gmap loc obj).

(** A new object, at a location not in use. *)
Definition alloc (h : heap) (o : obj) : heap * loc :=
  let l := fresh (dom h) in (<[l := o]> h, l).

(** ** The request model *)

(** [DifyRequest.__post_init__]: [if self.inputs is None: self.inputs = {}]. *)
Definition DifyRequest__post_init__ (h : heap) (self : loc) : heap :=
  match h !! self with
  | Some (ODifyRequest r) =>
    match inputs r with
    | None =>
      let '(h1, d) := alloc h (ODict ∅) in
      <[self := ODifyRequest
                  {| query := query r; user := user r;
                     conversation_id := conversation_id r;
                     inputs := Some d;
                     response_mode := response_mode r |}]> h1
    | Some _ => h
    end
  | _ => h
  end.

(** [DifyRequest(query, user, conversation_id=..., inputs=...,
    response_mode=...)].  An argument with a default is [None] when the
    caller leaves it out; for [inputs], [Some None] is an explicit
    [inputs=None]. *)
Definition DifyRequest_new (h : heap) (query user : string)
    (conversation_id : option string) (inputs : option (option loc))
    (response_mode : option string) : heap * loc :=
  let '(h1, self) :=
    alloc h (ODifyRequest
               {| query := query; user := user;
                  conversation_id := default "" conversation_id;
                  inputs := default None inputs;
                  response_mode := default "blocking" response_mode |}) in
  (DifyRequest__post_init__ h1 self, self).

(** [OpenAIRequest(messages, model=..., max_tokens=..., temperature=...,
    stream=...)]. *)
Definition OpenAIRequest_new (h : heap) (messages : list ChatMessage)
    (model : option string) (max_tokens : option (option Z))
    (temperature : option Q) (stream : option bool) : heap * loc :=
  alloc h (OOpenAIRequest
             {| messages := messages;
                model := default "gpt-3.5-turbo" model;
                max_tokens := default None max_tokens;
                temperature := default (7 # 10)%Q temperature;
                stream := default false stream |}).

(** [dataclasses.asdict] builds a new dict from the fields and copies
    every container it meets. *)
Definition asdict_ChatMessage (m : ChatMessage) : pyval :=
  PDict (<["role" := PStr (role m)]> (<["content" := PStr (content m)]> ∅)).

Definition asdict_OpenAIRequest (r : OpenAIRequest) : gmap string pyval :=
  <["messages" := PList (map asdict_ChatMessage (messages r))]>
  (<["model" := PStr (model r)]>
  (<["max_tokens" := from_option PInt PNone (max_tokens r)]>
  (<["temperature" := PFloat (temperature r)]>
  (<["stream" := PBool (stream r)]> ∅)))).

(** The copy of the [inputs] field; [None] when the field does not
    refer to a dict of the store. *)
Definition asdict_inputs (h : heap) (i : option loc) : option pyval :=
  match i with
  | None => Some PNone
  | Some l =>
    match h !! l with
    | Some (ODict d) => Some (PDict d)
    | _ => None
    end
  end.

Definition asdict_DifyRequest (h : heap) (r : DifyRequest)
    : option (gmap string pyval) :=
  i ← asdict_inputs h (inputs r);
  Some (<["query" := PStr (query r)]>
       (<["user" := PStr (user r)]>
       (<["conversation_id" := PStr (conversation_id r)]>
       (<["inputs" := i]>
       (<["response_mode" := PStr (response_mode r)]> ∅))))).

(** ** The client *)

Record DataFlowClient : Type := {
  base_url : string;
  api_key : option string;
  user_id : option string
}.

(** [s.rstrip('/')]. *)
Fixpoint rstrip_slash (s : string) : string :=
  match s with
  | EmptyString => EmptyString
  | String c s' =>
    match rstrip_slash s' with
    | EmptyString => if Ascii.eqb c "/" then EmptyString else String c EmptyString
    | t => String c t
    end
  end.

(** [DataFlowClient.__init__]. *)
Definition DataFlowClient_new (base_url : option string)
    (api_key user_id : option string) : DataFlowClient :=
  {| base_url := rstrip_slash (default "http://localhost:8082" base_url);
     api_key := api_key;
     user_id := user_id |}.

(** [session.post(url, json=data, stream=...)]: the environment sees the
    URL, the dict passed as [json] in the store of that moment, and the
    [stream] flag. *)
Definition post_fn : Type := string → loc → bool → heap → post_outcome.

(** The error envelope of both [except] handlers.  [status_code] is
    [getattr(e.response, 'status_code', None) if hasattr(e, 'response')
    else None]. *)
Definition status_code_attr (e : exn) : pyval :=
  if is_RequestException (exn_cls e)
  then from_option PInt PNone (exn_response e)
  else PNone.

Definition error_dict (type : string) (e : exn) : gmap string pyval :=
  <["type" := PStr type]>
  (<["message" := PStr (exn_message e)]>
  (<["status_code" := status_code_attr e]> ∅)).

Definition error_envelope (type : string) (e : exn) : pyval :=
  PDict (<["error" := PDict (error_dict type e)]> ∅).

(** The [try] block of [_blocking_request]. *)
Definition blocking_body (post : post_fn) (url : string) (data : loc)
    (h : heap) : result pyval :=
  match post url data false h with
  | PostRaises e => Exc e
  | PostReturns response =>
    match raise_for_status response with
    | Some e => Exc e
    | None => json_result response
    end
  end.

(** [DataFlowClient._blocking_request]. *)
Definition _blocking_request (post : post_fn) (url : string) (data : loc)
    (h : heap) : result pyval :=
  match blocking_body post url data h with
  | Ret v => Ret v
  | Exc e =>
    if is_RequestException (exn_cls e)
    then Ret (error_envelope "request_failed" e)
    else Exc e
  end.

(** What a streaming call yields: an event decoded from the stream, or
    the envelope of the [except] handler.  Both are dicts in Python; the
    tag records which [yield] statement produced the value. *)
Inductive item (J : Type) : Type :=
  | StreamEvent (j : J)
  | ErrorEnvelope (v : pyval).
Arguments StreamEvent {J} j.
Arguments ErrorEnvelope {J} v.

Definition data_prefix : Text.text := Text.of_string "data: ".
Definition done_sentinel : Text.text := Text.of_string "[DONE]".

(** The [for line in response.iter_lines()] loop.  [json_loads] is
    [json.loads], [None] standing for [json.JSONDecodeError]; [fin] is how
    [iter_lines] ends after the last line. *)
Fixpoint decode_lines {J} (json_loads : Text.text → option J)
    (ls : list string) (fin : option exn) : gen (item J) :=
  match ls with
  | [] =>
    match fin with
    | None => GStop
    | Some e => GRaise e
    end
  | line :: rest =>
    if String.eqb line "" then decode_lines json_loads rest fin
    else
      match Utf8.decode line with
      | None => GRaise (Exn UnicodeDecodeError "invalid utf-8" None)
      | Some line =>
        if Text.startswith data_prefix line then
          let data_str := drop 6 line in
          if Text.eqb (Text.strip data_str) done_sentinel then GStop
          else
            match json_loads data_str with
            | Some j => GYield (StreamEvent j) (decode_lines json_loads rest fin)
            | None => decode_lines json_loads rest fin
            end
        else decode_lines json_loads rest fin
      end
  end.

(** The [try] block of [_stream_request]. *)
Definition stream_body {J} (json_loads : Text.text → option J)
    (post : post_fn) (url : string) (data : loc) (h : heap) : gen (item J) :=
  match post url data true h with
  | PostRaises e => GRaise e
  | PostReturns response =>
    match raise_for_status response with
    | Some e => GRaise e
    | None => decode_lines json_loads (lines response) (lines_error response)
    end
  end.

(** [except requests.exceptions.RequestException as e: yield {...}]
    around a generator body. *)
Fixpoint except_RequestException {J} (g : gen (item J)) : gen (item J) :=
  match g with
  | GYield a k => GYield a (except_RequestException k)
  | GStop => GStop
  | GRaise e =>
    if is_RequestException (exn_cls e)
    then GYield (ErrorEnvelope (error_envelope "stream_failed" e)) GStop
    else GRaise e
  end.

(** [DataFlowClient._stream_request]: the generator, run in the store
    [h] of the moment it is first advanced. *)
Definition _stream_request {J} (json_loads : Text.text → option J)
    (post : post_fn) (url : string) (data : loc) (h : heap) : gen (item J) :=
  except_RequestException (stream_body json_loads post url data h).

(** ** The chat adapters *)

(** What an adapter hands back: the result of the blocking request it
    made, or the generator object of [_stream_request(url, data)], not
    yet advanced. *)
Inductive chat_result : Type :=
  | RBlocking (r : result pyval)
  | RStream (url : string) (data : loc).

(** [DataFlowClient.chat_openai].  [None]: [request] is not an
    [OpenAIRequest] of the store. *)
Definition chat_openai (self : DataFlowClient) (post : post_fn) (h : heap)
    (agent_id : string) (request : loc) : option (heap * chat_result) :=
  match h !! request with
  | Some (OOpenAIRequest r) =>
    let url := base_url self +:+ "/api/v1/openai/chat/completions?agent_id="
               +:+ agent_id in
    let '(h1, data) := alloc h (ODict (asdict_OpenAIRequest r)) in
    if stream r
    then Some (h1, RStream url data)
    else Some (h1, RBlocking (_blocking_request post url data h1))
  | _ => None
  end.

(** [DataFlowClient.chat_dify].  [None]: [request] is not a [DifyRequest]
    of the store, or [asdict] fails on it. *)
Definition chat_dify (self : DataFlowClient) (post : post_fn) (h : heap)
    (agent_id : string) (request : loc) : option (heap * chat_result) :=
  match h !! request with
  | Some (ODifyRequest r) =>
    let url := base_url self +:+ "/api/v1/dify/chat-messages?agent_id="
               +:+ agent_id in
    d ← asdict_DifyRequest h r;
    let '(h1, data) := alloc h (ODict d) in
    if String.eqb (response_mode r) "streaming"
    then Some (h1, RStream url data)
    else Some (h1, RBlocking (_blocking_request post url data h1))
  | _ => None
  end.

(** [DataFlowClient.chat_dify_workflow]. *)
Definition chat_dify_workflow (self : DataFlowClient) (post : post_fn)
    (h : heap) (agent_id : string) (request : loc)
    : option (heap * chat_result) :=
  match h !! request with
  | Some (ODifyRequest r) =>
    let url := base_url self +:+ "/api/v1/dify/workflows/run" in
    d ← asdict_DifyRequest h r;
    let '(h1, data) := alloc h (ODict d) in
    let h2 := <[data := ODict (<["agent_id" := PStr agent_id]> d)]> h1 in
    if String.eqb (response_mode r) "streaming"
    then Some (h2, RStream url data)
    else Some (h2, RBlocking (_blocking_request post url data h2))
  | _ => None
  end.

(** [DataFlowClient.chat_universal].  [None]: [data] is not a dict of the
    store. *)
Definition chat_universal (self : DataFlowClient) (post : post_fn)
    (h : heap) (agent_id : string) (data : loc)
    : option (heap * chat_result) :=
  match h !! data with
  | Some (ODict d) =>
    let url := base_url self +:+ "/api/v1/chat" in
    let d1 := <["agent_id" := PStr agent_id]> d in
    let h1 := <[data := ODict d1]> h in
    let is_streaming :=
      py_or (dict_get d1 "stream" (PBool false))
            (PBool (py_eq_str (dict_get d1 "response_mode" PNone) "streaming")) in
    if truthy is_streaming
    then Some (h1, RStream url data)
    else Some (h1, RBlocking (_blocking_request post url data h1))
  | _ => None
  end.

(** The four public chat operations, by request type. *)
Inductive chat_type : Type :=
  | TOpenAI
  | TDifyChat
  | TDifyWorkflow
  | TUniversal.

Definition chat (t : chat_type) (self : DataFlowClient) (post : post_fn)
    (h : heap) (agent_id : string) (arg : loc)
    : option (heap * chat_result) :=
  match t with
  | TOpenAI => chat_openai self post h agent_id arg
  | TDifyChat => chat_dify self post h agent_id arg
  | TDifyWorkflow => chat_dify_workflow self post h agent_id arg
  | TUniversal => chat_universal self post h agent_id arg
  end.

(** The streaming path was taken. *)
Definition is_stream (r : chat_result) : bool :=
  match r with
  | RStream _ _ => true
  | RBlocking _ => false
  end.


(** ["?" in s]: the string has a query part. *)
Fixpoint has_query (s : string) : bool :=
  match s with
  | EmptyString => false
  | String c s' => Ascii.eqb c "?" || has_query s'
  end.

(** ** Observations on streamed sequences *)

(** The decoded events among the yielded items. *)
Definition events {J} (g : gen (item J)) : list J :=
  omap (λ i, match i with StreamEvent j => Some j | ErrorEnvelope _ => None end)
       (yielded g).

(** After an [ErrorEnvelope] the generator returns at once. *)
Fixpoint ends_at_error {J} (g : gen (item J)) : Prop :=
  match g with
  | GYield (ErrorEnvelope _) k => k = GStop
  | GYield (StreamEvent _) k => ends_at_error k
  | GStop | GRaise _ => True
  end.

(** ** The decoder, as the specification words it *)

(** The payload of a frame: what follows the ["data: "] prefix of a line
    that has it. *)
Definition frame_payload (line : Text.text) : option Text.text :=
  if Text.startswith data_prefix line then Some (drop 6 line) else None.

(** The completion sentinel: a payload that is ["[DONE]"] once the
    surrounding white space is stripped. *)
Definition is_done (payload : Text.text) : bool :=
  Text.eqb (Text.strip payload) done_sentinel.

(** The payloads that precede the first sentinel. *)
Fixpoint before_done (payloads : list Text.text) : list Text.text :=
  match payloads with
  | [] => []
  | p :: ps => if is_done p then [] else p :: before_done ps
  end.

(** Blank lines dropped, the frames with the prefix kept, cut at the
    sentinel, each payload parsed and the unparsable ones left out. *)
Definition spec_decode {J} (json_loads : Text.text → option J)
    (ls : list Text.text) : list J :=
  omap json_loads
       (before_done (omap frame_payload (filter (λ l, l ≠ []) ls))).

(** The same response with another body delivered by [iter_lines]. *)
Definition with_lines (r : Response) (ls : list string) (fin : option exn)
    : Response :=
  {| status_code := status_code r; reason := reason r;
     resp_url := resp_url r; json_result := json_result r;
     lines := ls; lines_error := fin |}.

(** A value is an error envelope of the given type:
    [{"error": {"type": type, ...}}]. *)
Definition is_error_envelope (type : string) (v : pyval) : Prop :=
  ∃ top err, v = PDict top ∧ top !! "error" = Some (PDict err)
             ∧ err !! "type" = Some (PStr type).

(** The value bound to the key [status_code] of the envelope's error
    mapping; [None] when the key is absent. *)
Definition envelope_status_code (v : pyval) : option pyval :=
  match v with
  | PDict top =>
    match top !! "error" with
    | Some (PDict err) => err !! "status_code"
    | _ => None
    end
  | _ => None
  end.

(** A byte line that is a completion frame. *)
Definition is_done_line (line : string) : bool :=
  match Utf8.decode line with
  | Some t => from_option is_done false (frame_payload t)
  | None => false
  end.

(** ** A JSON reader for the sample runs

    [json.loads] is a parameter of the decoder.  The sample runs
    instantiate it with this reader of a subset of JSON: [null], [true],
    [false], integers, strings with the simple escapes, arrays and
    objects, with white space between tokens. *)

Module MiniJson.

#[warnings="-register-all"]
Inductive json : Type :=
  | JNull
  | JBool (b : bool)
  | JNum (z : Z)
  | JStr (s : list N)
  | JArr (l : list json)
  | JObj (l : list (list N * json)).

Definition is_ws (c : N) : bool :=
  ((c =? 32) || (c =? 9) || (c =? 10) || (c =? 13))%N.

Fixpoint skip_ws (s : list N) : list N :=
  match s with
  | c :: s' => if is_ws c then skip_ws s' else s
  | [] => []
  end.

(** The rest of [s] after the literal [lit]. *)
Definition expect (lit : string) (s : list N) : option (list N) :=
  let p := Text.of_string lit in
  if Text.startswith p s then Some (drop (length p) s) else None.

Definition is_digit (c : N) : bool := ((48 <=? c) && (c <=? 57))%N.

Fixpoint read_digits (acc : Z) (s : list N) : Z * list N :=
  match s with
  | c :: s' =>
    if is_digit c then read_digits (10 * acc + Z.of_N (c - 48))%Z s'
    else (acc, s)
  | [] => (acc, [])
  end.

(** An integer: an optional minus sign and at least one digit. *)
Definition read_int (s : list N) : option (Z * list N) :=
  let '(neg, s1) :=
    match s with
    | 45%N :: s' => (true, s')
    | _ => (false, s)
    end in
  match s1 with
  | c :: _ =>
    if is_digit c
    then let '(z, r) := read_digits 0 s1 in
         Some (if neg then (- z)%Z else z, r)
    else None
  | [] => None
  end.

(** The characters of a string up to its closing quote; the opening
    quote is already consumed. *)
Fixpoint read_string (s : list N) : option (list N * list N) :=
  match s with
  | [] => None
  | c :: s' =>
    if (c =? 34)%N then Some ([], s')
    else if (c <? 32)%N then None
    else if (c =? 92)%N then
      match s' with
      | e :: s'' =>
        let unescaped :=
          if (e =? 34)%N then Some 34%N
          else if (e =? 92)%N then Some 92%N
          else if (e =? 47)%N then Some 47%N
          else if (e =? 98)%N then Some 8%N
          else if (e =? 102)%N then Some 12%N
          else if (e =? 110)%N then Some 10%N
          else if (e =? 114)%N then Some 13%N
          else if (e =? 116)%N then Some 9%N
          else None in
        u ← unescaped;
        '(t, r) ← read_string s'';
        Some (u :: t, r)
      | [] => None
      end
    else
      '(t, r) ← read_string s';
      Some (c :: t, r)
  end.

(** One value, with the rest of the input.  [n] bounds the number of
    values and separators read. *)
Fixpoint read_value (n : nat) (s : list N) : option (json * list N) :=
  match n with
  | O => None
  | S n' =>
    match skip_ws s with
    | [] => None
    | c :: r =>
      if (c =? 34)%N then
        '(t, r') ← read_string r; Some (JStr t, r')
      else if (c =? 91)%N then
        match skip_ws r with
        | 93%N :: r' => Some (JArr [], r')
        | _ => '(l, r') ← read_elements n' r; Some (JArr l, r')
        end
      else if (c =? 123)%N then
        match skip_ws r with
        | 125%N :: r' => Some (JObj [], r')
        | _ => '(l, r') ← read_members n' r; Some (JObj l, r')
        end
      else if (c =? 110)%N then r' ← expect "ull" r; Some (JNull, r')
      else if (c =? 116)%N then r' ← expect "rue" r; Some (JBool true, r')
      else if (c =? 102)%N then r' ← expect "alse" r; Some (JBool false, r')
      else '(z, r') ← read_int (c :: r); Some (JNum z, r')
    end
  end
with read_elements (n : nat) (s : list N) : option (list json * list N) :=
  match n with
  | O => None
  | S n' =>
    '(v, r) ← read_value n' s;
    match skip_ws r with
    | 44%N :: r' => '(l, r'') ← read_elements n' r'; Some (v :: l, r'')
    | 93%N :: r' => Some ([v], r')
    | _ => None
    end
  end
with read_members (n : nat) (s : list N)
    : option (list (list N * json) * list N) :=
  match n with
  | O => None
  | S n' =>
    match skip_ws s with
    | 34%N :: r0 =>
      '(k, r1) ← read_string r0;
      match skip_ws r1 with
      | 58%N :: r2 =>
        '(v, r3) ← read_value n' r2;
        match skip_ws r3 with
        | 44%N :: r4 => '(l, r5) ← read_members n' r4; Some ((k, v) :: l, r5)
        | 125%N :: r4 => Some ([(k, v)], r4)
        | _ => None
        end
      | _ => None
      end
    | _ => None
    end
  end.

(** The reader: one value and nothing but white space after it. *)
Definition loads (s : list N) : option json :=
  '(v, r) ← read_value (2 * length s + 2) s;
  match skip_ws r with
  | [] => Some v
  | _ => None
  end.

End MiniJson.

(** ** Sample data *)

(** The double quote character. *)
Definition dq : string := String "034"%char EmptyString.

(** [{"k":v}] as bytes. *)
Definition json_frame (k v : string) : string :=
  "{" +:+ dq +:+ k +:+ dq +:+ ":" +:+ v +:+ "}".

(** The stream of the specification's example. *)
Definition sample_lines : list string :=
  [ "data: " +:+ json_frame "a" "1";
    "";
    "data: not-json";
    "data: " +:+ json_frame "b" "2";
    "data: [DONE]";
    "data: " +:+ json_frame "c" "3" ].

(** A response of the given status whose body is the given lines. *)
Definition stream_response (status : Z) (ls : list string)
    (fin : option exn) : Response :=
  {| status_code := status; reason := "";
     resp_url := ""; json_result := Exc (Exn RequestsJSONDecodeError "" None);
     lines := ls; lines_error := fin |}.

(** A response of the given status with the given outcome of
    [response.json()]. *)
Definition json_response (status : Z) (j : result pyval) : Response :=
  {| status_code := status; reason := "";
     resp_url := ""; json_result := j;
     lines := []; lines_error := None |}.

(** A server that answers every request alike. *)
Definition always (o : post_outcome) : post_fn := λ _ _ _ _, o.

(** An unreachable host. *)
Definition unreachable : post_fn :=
  always (PostRaises (Exn ConnectionError "connection refused" None)).

Definition sample_client : DataFlowClient :=
  DataFlowClient_new (Some "http://localhost:8082/") (Some "key") None.

(** ** The rest of the client *)

(** [c.lower()] on an ASCII character; the header names of the client
    are ASCII. *)
Definition lower_ascii (c : ascii) : ascii :=
  let n := nat_of_ascii c in
  if ((65 <=? n) && (n <=? 90))%nat then ascii_of_nat (n + 32) else c.

Fixpoint lower (s : string) : string :=
  match s with
  | EmptyString => EmptyString
  | String c s' => String (lower_ascii c) (lower s')
  end.

(** [session.headers], a case-insensitive dict: the entry of a header is
    stored under the lower-case name, with the name as it was written. *)
Abbreviation headers := (gmap string (string * string)).

(** [hs[k] = v]. *)
Definition headers_set (hs : headers) (k v : string) : headers :=
  <[lower k := (k, v)]> hs.

(** [hs.update({k1: v1, ...})]. *)
Definition headers_update (hs : headers) (kvs : list (string * string))
    : headers :=
  foldl (λ h kv, headers_set h kv.1 kv.2) hs kvs.

(** [hs.get(k)]. *)
Definition headers_get (hs : headers) (k : string) : option string :=
  snd <$> hs !! lower k.

(** [k in hs]. *)
Definition headers_contains (hs : headers) (k : string) : bool :=
  bool_decide (is_Some (hs !! lower k)).

(** [if s:] for an optional string argument: [None] and [""] are
    false. *)
Definition str_truthy (s : option string) : bool :=
  match s with
  | Some s => negb (String.eqb s "")
  | None => false
  end.

(** The headers [DataFlowClient.__init__] leaves on the session; [dflt]
    are the headers of a new [requests.Session()]. *)
Definition session_headers (dflt : headers) (api_key user_id : option string)
    : headers :=
  let h1 :=
    if str_truthy api_key
    then headers_update dflt
           [("Authorization", "Bearer " +:+ default "" api_key)]
    else dflt in
  let h2 :=
    if str_truthy user_id
    then headers_update h1 [("X-User-ID", default "" user_id)]
    else h1 in
  headers_update h2
    [("Content-Type", "application/json");
     ("User-Agent", "DataFlow-Python-Client/1.0")].

(** [session.get(url)]. *)
Definition get_fn : Type := string → post_outcome.

(** The [try] block of [health_check] and of [get_service_info]. *)
Definition get_body (get : get_fn) (url : string) : result pyval :=
  match get url with
  | PostRaises e => Exc e
  | PostReturns response =>
    match raise_for_status response with
    | Some e => Exc e
    | None => json_result response
    end
  end.

(** [DataFlowClient.health_check]. *)
Definition health_check (self : DataFlowClient) (get : get_fn)
    : result pyval :=
  match get_body get (base_url self +:+ "/api/v1/health") with
  | Ret v => Ret v
  | Exc e =>
    if is_RequestException (exn_cls e)
    then Ret (PDict (<["error" := PStr (exn_message e)]>
                    (<["status" := PStr "unhealthy"]> ∅)))
    else Exc e
  end.

(** [DataFlowClient.get_service_info]. *)
Definition get_service_info (self : DataFlowClient) (get : get_fn)
    : result pyval :=
  match get_body get (base_url self +:+ "/") with
  | Ret v => Ret v
  | Exc e =>
    if is_RequestException (exn_cls e)
    then Ret (PDict (<["error" := PStr (exn_message e)]> ∅))
    else Exc e
  end.

(** [n] slashes. *)
Fixpoint slashes (n : nat) : string :=
  match n with
  | O => EmptyString
  | S n' => String "/" (slashes n')
  end.

(** The last character of a string. *)
Fixpoint last_char (s : string) : option ascii :=
  match s with
  | EmptyString => None
  | String c EmptyString => Some c
  | String _ s' => last_char s'
  end.

(** The envelopes among the yielded items. *)
Definition envelopes {J} (g : gen (item J)) : list pyval :=
  omap (λ i, match i with StreamEvent _ => None | ErrorEnvelope v => Some v end)
       (yielded g).

(** A line the loop passes over: blank, without the prefix, or with a
    payload that is not the sentinel and does not parse. *)
Definition skipped_line {J} (json_loads : Text.text → option J)
    (line : string) : bool :=
  String.eqb line ""
  || match Utf8.decode line with
     | None => false
     | Some t =>
       match frame_payload t with
       | None => true
       | Some p => negb (is_done p) && negb (bool_decide (is_Some (json_loads p)))
       end
     end.

(** [p] occurs in [s] as a substring. *)
Fixpoint is_infix (p s : string) : bool :=
  String.prefix p s
  || match s with
     | EmptyString => false
     | String _ s' => is_infix p s'
     end.

(** [k in v] for a string [k], the test the callers apply to what the
    client hands back: a key of a dict, an element of a list, a substring
    of a string; [TypeError] on a value that is no container. *)
Definition py_contains (k : string) (v : pyval) : result bool :=
  match v with
  | PDict d => Ret (bool_decide (is_Some (d !! k)))
  | PList l => Ret (existsb (λ x, py_eq_str x k) l)
  | PStr s => Ret (is_infix k s)
  | PNone | PBool _ | PInt _ | PFloat _ =>
    Exc (Exn TypeError "argument is not iterable" None)
  end.

(** * Properties *)

(** ** The stream decoder *)

Section Decoder.

Context {J : Type}.
Variable json_loads : Text.text → option J.

Lemma events_event (j : J) (k : gen (item J)) :
  events (GYield (StreamEvent j) k) = j :: events k.
Proof. reflexivity. Qed.

Lemma events_envelope (v : pyval) (k : gen (item J)) :
  events (GYield (ErrorEnvelope v) k) = events k.
Proof. reflexivity. Qed.

(** A blank line carries no frame, so dropping blank lines first changes
    nothing. *)
Lemma frame_payload_nonblank (ts : list Text.text) :
  omap frame_payload (filter (λ l, l ≠ []) ts) = omap frame_payload ts.
Proof.
  induction ts as [|t ts IH]; [done|].
  destruct t as [|c t].
  - rewrite filter_cons_False by (intros Hne; by apply Hne). exact IH.
  - rewrite filter_cons_True by done.
    change (omap frame_payload ((c :: t) :: ?l)) with
      (match frame_payload (c :: t) with
       | Some p => p :: omap frame_payload l
       | None => omap frame_payload l
       end).
    by rewrite IH.
Qed.

Lemma spec_decode_cons_blank (ts : list Text.text) :
  spec_decode json_loads ([] :: ts) = spec_decode json_loads ts.
Proof. unfold spec_decode. by rewrite !frame_payload_nonblank. Qed.








(** The handler adds no event. *)
Lemma except_events (g : gen (item J)) :
  events (except_RequestException g) = events g.
Proof.
  induction g as [[j|v] k IH| |e]; cbn [except_RequestException]; try done.
  - by rewrite !events_event, IH.
  - by destruct (is_RequestException (exn_cls e)).
Qed.

(** A completion frame is not a blank line. *)
Lemma is_done_line_nonblank (s : string) :
  is_done_line s = true → String.eqb s "" = false.
Proof. destruct s; [discriminate | done]. Qed.

(** The loop stops at a completion frame: what follows it, and how the
    stream ends, is never looked at. *)
Lemma decode_lines_done (l1 l2 : list string) (s : string) (fin : option exn) :
  is_done_line s = true →
  decode_lines json_loads (l1 ++ s :: l2) fin = decode_lines json_loads l1 None.
Proof.
  intros Hs. induction l1 as [|b l1 IH].
  - cbn [app decode_lines]. rewrite (is_done_line_nonblank _ Hs).
    unfold is_done_line in Hs. destruct (Utf8.decode s) as [t|]; [|done].
    unfold frame_payload in Hs.
    destruct (Text.startswith data_prefix t); [|done].
    simpl in Hs. unfold is_done in Hs. by rewrite Hs.
  - cbn [app decode_lines]. by rewrite IH.
Qed.

(** The envelope of the handler is the last thing yielded. *)
Lemma decode_lines_ends_at_error (ls : list string) (fin : option exn) :
  ends_at_error (except_RequestException (decode_lines json_loads ls fin)).
Proof.
  induction ls as [|b ls IH]; cbn [decode_lines].
  - destruct fin as [e|]; simpl; [|done].
    by destruct (is_RequestException (exn_cls e)).
  - destruct (String.eqb b ""); [exact IH|].
    destruct (Utf8.decode b) as [t|]; [|done].
    destruct (Text.startswith data_prefix t); [|exact IH].
    destruct (Text.eqb _ _); [done|].
    destruct (json_loads _); [exact IH|exact IH].
Qed.

End Decoder.



(** The envelope built by a handler is an error envelope of its type. *)
Lemma error_envelope_is_envelope (type : string) (e : exn) :
  is_error_envelope type (error_envelope type e).
Proof.
  exists (<["error" := PDict (error_dict type e)]> ∅), (error_dict type e).
  split; [done|]. split; [by rewrite lookup_insert_eq|].
  unfold error_dict. by rewrite lookup_insert_eq.
Qed.

(** The [status_code] key of the envelope is always bound. *)
Lemma envelope_status_code_bound (type : string) (e : exn) :
  envelope_status_code (error_envelope type e) = Some (status_code_attr e).
Proof.
  unfold envelope_status_code, error_envelope, error_dict.
  rewrite lookup_insert_eq.
  rewrite lookup_insert_ne by done. rewrite lookup_insert_ne by done.
  by rewrite lookup_insert_eq.
Qed.

(** C3: when the POST of a streaming request raises a RequestException
    (the connection fails before any byte arrives), the sequence consists
    of one element, an error envelope of type [stream_failed], after which
    the generator returns; no exception reaches the caller. *)
Theorem stream_failure_yields_one_envelope
    (J : Type) (json_loads : Text.text → option J) (post : post_fn)
    (url : string) (data : loc) (h : heap) (e : exn) :
  post url data true h = PostRaises e →
  is_RequestException (exn_cls e) = true →
  _stream_request json_loads post url data h
    = GYield (ErrorEnvelope (error_envelope "stream_failed" e)) GStop
  ∧ is_error_envelope "stream_failed" (error_envelope "stream_failed" e)
  ∧ length (yielded (_stream_request json_loads post url data h)) = 1
  ∧ escaped (_stream_request json_loads post url data h) = None.
Proof.
  intros Hpost Hcls.
  assert (_stream_request json_loads post url data h
          = GYield (ErrorEnvelope (error_envelope "stream_failed" e)) GStop)
    as Heq.
  { unfold _stream_request, stream_body. rewrite Hpost.
    cbn [except_RequestException]. by rewrite Hcls. }
  rewrite Heq. split; [done|].
  split; [apply error_envelope_is_envelope|]. done.
Qed.

(** A streaming request against an unreachable host. *)
Lemma stream_failure_unreachable :
  _stream_request MiniJson.loads unreachable
    "http://localhost:8082/api/v1/chat" 1%positive ∅
  = GYield (ErrorEnvelope
              (error_envelope "stream_failed"
                 (Exn ConnectionError "connection refused" None)))
      GStop.
Proof.
  exact (proj1 (stream_failure_yields_one_envelope
                  MiniJson.json MiniJson.loads unreachable
                  "http://localhost:8082/api/v1/chat" 1%positive ∅
                  (Exn ConnectionError "connection refused" None)
                  eq_refl eq_refl)).
Defined.

(** C4: in every streamed sequence the error envelope, when there is one,
    is the last element and the generator returns right after it; and
    once a ["[DONE]"] frame is read the sequence is over: the lines after
    it and the way the body ends contribute nothing, the sequence being
    the one of the stream cut before that frame and closed. *)
Theorem stream_ends_at_error_or_done
    (J : Type) (json_loads : Text.text → option J) (post : post_fn)
    (url : string) (data : loc) (h : heap) :
  ends_at_error (_stream_request json_loads post url data h)
  ∧ (∀ response l1 s l2,
       post url data true h = PostReturns response →
       lines response = (l1 ++ s :: l2)%list →
       is_done_line s = true →
       _stream_request json_loads post url data h
         = _stream_request json_loads
             (always (PostReturns (with_lines response l1 None))) url data h).
Proof.
  split.
  - unfold _stream_request, stream_body.
    destruct (post url data true h) as [e|response].
    + cbn [except_RequestException].
      by destruct (is_RequestException (exn_cls e)).
    + destruct (raise_for_status response) as [e|].
      * cbn [except_RequestException].
        by destruct (is_RequestException (exn_cls e)).
      * apply decode_lines_ends_at_error.
  - intros response l1 s l2 Hpost Hlines Hs.
    unfold _stream_request, stream_body, always. rewrite Hpost.
    change (raise_for_status (with_lines response l1 None))
      with (raise_for_status response).
    destruct (raise_for_status response); [done|].
    cbn [lines lines_error with_lines]. rewrite Hlines.
    by rewrite decode_lines_done.
Qed.

(** The sample stream of C1 stops at its fifth line. *)
Lemma stream_ends_at_done_sample :
  _stream_request MiniJson.loads
    (always (PostReturns
               (stream_response 200 sample_lines
                  (Some (Exn ChunkedEncodingError "connection broken" None)))))
    "http://localhost:8082/api/v1/chat" 1%positive ∅
  = _stream_request MiniJson.loads
      (always (PostReturns
                 (stream_response 200 (take 4 sample_lines) None)))
      "http://localhost:8082/api/v1/chat" 1%positive ∅.
Proof.
  exact (proj2 (stream_ends_at_error_or_done
                  MiniJson.json MiniJson.loads _ _ 1%positive ∅)
               (stream_response 200 sample_lines
                  (Some (Exn ChunkedEncodingError "connection broken" None)))
               (take 4 sample_lines) "data: [DONE]" (drop 5 sample_lines)
               eq_refl eq_refl eq_refl).
Defined.


(** ** The blocking request *)

(** [raise_for_status] raises exactly for the 4xx and 5xx codes, and the
    exception carries the response. *)
Lemma raise_for_status_error (r : Response) :
  (400 ≤ status_code r < 600)%Z →
  ∃ msg, raise_for_status r = Some (Exn HTTPError msg (Some (status_code r))).
Proof.
  intros [Hlo Hhi]. unfold raise_for_status.
  destruct (decide (status_code r < 500)%Z) as [Hlt|Hge].
  - assert ((400 <=? status_code r) && (status_code r <? 500) = true)%Z as ->
      by (apply andb_true_intro; split; [apply Z.leb_le|apply Z.ltb_lt]; lia).
    eauto.
  - assert ((400 <=? status_code r) && (status_code r <? 500) = false)%Z as ->
      by (apply andb_false_intro2; apply Z.ltb_ge; lia).
    assert ((500 <=? status_code r) && (status_code r <? 600) = true)%Z as ->
      by (apply andb_true_intro; split; [apply Z.leb_le|apply Z.ltb_lt]; lia).
    eauto.
Qed.

Lemma raise_for_status_ok (r : Response) :
  (status_code r < 400 ∨ 600 ≤ status_code r)%Z →
  raise_for_status r = None.
Proof.
  intros Hs. unfold raise_for_status.
  assert ((400 <=? status_code r) && (status_code r <? 500) = false)%Z as ->.
  { apply andb_false_iff. rewrite Z.leb_gt, Z.ltb_ge. lia. }
  assert ((500 <=? status_code r) && (status_code r <? 600) = false)%Z as ->.
  { apply andb_false_iff. rewrite Z.leb_gt, Z.ltb_ge. lia. }
  done.
Qed.

(** The handler of the blocking request turns a RequestException into
    the envelope. *)
Lemma blocking_request_caught (post : post_fn) (url : string) (data : loc)
    (h : heap) (e : exn) :
  blocking_body post url data h = Exc e →
  is_RequestException (exn_cls e) = true →
  _blocking_request post url data h = Ret (error_envelope "request_failed" e).
Proof. intros Hb Hc. unfold _blocking_request. by rewrite Hb, Hc. Qed.

(** Only exceptions that are not RequestExceptions leave the blocking
    request. *)
Lemma blocking_request_escape (post : post_fn) (url : string) (data : loc)
    (h : heap) (e : exn) :
  _blocking_request post url data h = Exc e →
  is_RequestException (exn_cls e) = false.
Proof.
  unfold _blocking_request.
  destruct (blocking_body post url data h) as [v|e']; [done|].
  destruct (is_RequestException (exn_cls e')) eqn:Hc; [done|].
  intros [= <-]. exact Hc.
Qed.

(** A 4xx or 5xx status gives the envelope with that status. *)
Lemma blocking_http_error_envelope (post : post_fn) (url : string)
    (data : loc) (h : heap) (response : Response) :
  post url data false h = PostReturns response →
  (400 ≤ status_code response < 600)%Z →
  ∃ v, _blocking_request post url data h = Ret v
       ∧ is_error_envelope "request_failed" v
       ∧ envelope_status_code v = Some (PInt (status_code response)).
Proof.
  intros Hpost Hstatus.
  destruct (raise_for_status_error response Hstatus) as [msg Hraise].
  exists (error_envelope "request_failed"
            (Exn HTTPError msg (Some (status_code response)))).
  split; [|split].
  - apply blocking_request_caught; [|done].
    unfold blocking_body. by rewrite Hpost, Hraise.
  - apply error_envelope_is_envelope.
  - by rewrite envelope_status_code_bound.
Qed.

(** C2 (as stated, refuted): against an unreachable host the envelope of
    the blocking request does not lack the [status_code] key. *)
Lemma blocking_unreachable_status_code_not_absent :
  ¬ (∃ v, _blocking_request unreachable
            "http://localhost:8082/api/v1/chat" 1%positive ∅ = Ret v
          ∧ is_error_envelope "request_failed" v
          ∧ envelope_status_code v = None).
Proof.
  intros (v & Hv & _ & Habsent).
  rewrite (blocking_request_caught unreachable _ _ _
             (Exn ConnectionError "connection refused" None) eq_refl eq_refl)
    in Hv.
  injection Hv as <-.
  rewrite envelope_status_code_bound in Habsent. discriminate.
Qed.

(** C2 (amended): when the POST of a blocking request raises a
    RequestException that carries no response, the request returns an
    error envelope of type [request_failed] in which the key
    [status_code] is present and bound to [None]. *)
Theorem blocking_failure_without_response
    (post : post_fn) (url : string) (data : loc) (h : heap) (e : exn) :
  post url data false h = PostRaises e →
  is_RequestException (exn_cls e) = true →
  exn_response e = None →
  ∃ v, _blocking_request post url data h = Ret v
       ∧ is_error_envelope "request_failed" v
       ∧ envelope_status_code v = Some PNone.
Proof.
  intros Hpost Hcls Hresp.
  exists (error_envelope "request_failed" e). split; [|split].
  - apply blocking_request_caught; [|done].
    unfold blocking_body. by rewrite Hpost.
  - apply error_envelope_is_envelope.
  - rewrite envelope_status_code_bound. unfold status_code_attr.
    by rewrite Hcls, Hresp.
Qed.

(** A blocking request against an unreachable host. *)
Lemma blocking_failure_unreachable :
  ∃ v, _blocking_request unreachable
         "http://localhost:8082/api/v1/chat" 1%positive ∅ = Ret v
       ∧ is_error_envelope "request_failed" v
       ∧ envelope_status_code v = Some PNone.
Proof.
  exact (blocking_failure_without_response unreachable
           "http://localhost:8082/api/v1/chat" 1%positive ∅
           (Exn ConnectionError "connection refused" None)
           eq_refl eq_refl eq_refl).
Defined.

(** C6 (as stated, refuted): a response with status 300 and a JSON body
    is not turned into an envelope carrying that status; the body is
    returned. *)
Lemma blocking_status_300_no_envelope :
  ¬ (∃ v, _blocking_request
            (always (PostReturns
               (json_response 300 (Ret (PDict (<["ok" := PBool true]> ∅))))))
            "http://localhost:8082/api/v1/chat" 1%positive ∅ = Ret v
          ∧ is_error_envelope "request_failed" v
          ∧ envelope_status_code v = Some (PInt 300)).
Proof.
  intros (v & Hv & (top & err & -> & Herr & _) & _).
  injection Hv as <-. by rewrite lookup_insert_ne in Herr.
Qed.

(** C6 (amended): a blocking request whose response has a 4xx or 5xx
    status returns an error envelope whose [status_code] is that
    status. *)
Theorem blocking_http_error_status
    (post : post_fn) (url : string) (data : loc) (h : heap)
    (response : Response) :
  post url data false h = PostReturns response →
  (400 ≤ status_code response < 600)%Z →
  ∃ v, _blocking_request post url data h = Ret v
       ∧ is_error_envelope "request_failed" v
       ∧ envelope_status_code v = Some (PInt (status_code response)).
Proof. apply blocking_http_error_envelope. Qed.

(** A blocking request answered with 404. *)
Lemma blocking_http_error_404 :
  ∃ v, _blocking_request
         (always (PostReturns (json_response 404 (Ret PNone))))
         "http://localhost:8082/api/v1/chat" 1%positive ∅ = Ret v
       ∧ is_error_envelope "request_failed" v
       ∧ envelope_status_code v = Some (PInt 404).
Proof.
  refine (blocking_http_error_status
            (always (PostReturns (json_response 404 (Ret PNone))))
            "http://localhost:8082/api/v1/chat" 1%positive ∅
            (json_response 404 (Ret PNone)) eq_refl _).
  simpl. lia.
Defined.

(** ** The adapters *)

Lemma alloc_fresh (h : heap) (o : obj) : h !! (alloc h o).2 = None.
Proof. apply not_elem_of_dom, is_fresh. Qed.

Lemma alloc_lookup (h : heap) (o : obj) :
  (alloc h o).1 !! (alloc h o).2 = Some o.
Proof. apply lookup_insert_eq. Qed.

Lemma alloc_subseteq (h : heap) (o : obj) : h ⊆ (alloc h o).1.
Proof. apply insert_subseteq, (alloc_fresh h o). Qed.

(** A blocking answer of a public operation is the answer of
    [_blocking_request] in the store the operation leaves. *)
Lemma chat_blocking_result (t : chat_type) (self : DataFlowClient)
    (post : post_fn) (h : heap) (agent_id : string) (arg : loc)
    (h' : heap) (r : result pyval) :
  chat t self post h agent_id arg = Some (h', RBlocking r) →
  ∃ url data, r = _blocking_request post url data h'.
Proof.
  destruct t; cbn [chat].
  - unfold chat_openai. destruct (h !! arg) as [[d|q|q]|]; try done.
    unfold alloc. destruct (stream q); intros [= <- <-]; eauto.
  - unfold chat_dify. destruct (h !! arg) as [[d|q|q]|]; try done.
    destruct (asdict_DifyRequest h q) as [d|]; [|done].
    cbn [mbind option_bind]. unfold alloc.
    destruct (String.eqb _ _); intros [= <- <-]; eauto.
  - unfold chat_dify_workflow. destruct (h !! arg) as [[d|q|q]|]; try done.
    destruct (asdict_DifyRequest h q) as [d|]; [|done].
    cbn [mbind option_bind]. unfold alloc.
    destruct (String.eqb _ _); intros [= <- <-]; eauto.
  - unfold chat_universal. destruct (h !! arg) as [[d|q|q]|]; try done.
    destruct (truthy _); intros [= <- <-]; eauto.
Qed.

(** C5 (as stated, refuted): a blocking call of [chat_universal] that is
    answered with status 300 and a JSON body returns that body, which is
    not an error envelope. *)
Lemma chat_universal_status_300_returns_body :
  ¬ (∃ h' v, chat TUniversal sample_client
               (always (PostReturns
                  (json_response 300 (Ret (PDict (<["ok" := PBool true]> ∅))))))
               (<[1%positive := ODict ∅]> ∅) "A1" 1%positive
             = Some (h', RBlocking (Ret v))
             ∧ is_error_envelope "request_failed" v).
Proof.
  intros (h' & v & Hchat & (top & err & -> & Herr & _)).
  cbn [chat] in Hchat. unfold chat_universal in Hchat.
  rewrite lookup_insert_eq in Hchat.
  match type of Hchat with
  | context [truthy ?x] => change (truthy x) with false in Hchat
  end.
  injection Hchat as _ <-. by rewrite lookup_insert_ne in Herr.
Qed.

(** C5 (amended): a blocking call through a public chat operation turns
    every transport failure into a returned error envelope: a
    RequestException raised by the POST (connection refused, timeout), a
    4xx or 5xx status, and a body that [response.json()] rejects with
    the RequestException of the requests library.  An exception that
    leaves the operation is never a RequestException. *)
Theorem blocking_failures_become_envelopes
    (t : chat_type) (self : DataFlowClient) (post : post_fn) (h : heap)
    (agent_id : string) (arg : loc) (h' : heap) (r : result pyval) :
  chat t self post h agent_id arg = Some (h', RBlocking r) →
  ∃ url data,
    r = _blocking_request post url data h'
    ∧ (∀ e, post url data false h' = PostRaises e →
            is_RequestException (exn_cls e) = true →
            ∃ v, r = Ret v ∧ is_error_envelope "request_failed" v)
    ∧ (∀ response, post url data false h' = PostReturns response →
            (400 ≤ status_code response < 600)%Z →
            ∃ v, r = Ret v ∧ is_error_envelope "request_failed" v)
    ∧ (∀ response e, post url data false h' = PostReturns response →
            (status_code response < 400 ∨ 600 ≤ status_code response)%Z →
            json_result response = Exc e →
            is_RequestException (exn_cls e) = true →
            ∃ v, r = Ret v ∧ is_error_envelope "request_failed" v)
    ∧ (∀ e, r = Exc e → is_RequestException (exn_cls e) = false).
Proof.
  intros Hchat.
  destruct (chat_blocking_result _ _ _ _ _ _ _ _ Hchat) as (url & data & ->).
  exists url, data. split; [done|]. repeat split.
  - intros e Hpost Hcls. exists (error_envelope "request_failed" e).
    split; [|apply error_envelope_is_envelope].
    apply blocking_request_caught; [|done].
    unfold blocking_body. by rewrite Hpost.
  - intros response Hpost Hstatus.
    destruct (blocking_http_error_envelope post url data h' response
                Hpost Hstatus) as (v & Hv & Henv & _).
    by exists v.
  - intros response e Hpost Hstatus Hjson Hcls.
    exists (error_envelope "request_failed" e).
    split; [|apply error_envelope_is_envelope].
    apply blocking_request_caught; [|done].
    unfold blocking_body.
    by rewrite Hpost, (raise_for_status_ok _ Hstatus).
  - apply blocking_request_escape.
Qed.

(** A blocking Dify chat against an unreachable host. *)
Lemma chat_dify_unreachable :
  ∃ v, snd <$> chat TDifyChat sample_client unreachable
                   (DifyRequest_new ∅ "q" "u" None None None).1 "A1"
                   (DifyRequest_new ∅ "q" "u" None None None).2
       = Some (RBlocking (Ret v))
       ∧ is_error_envelope "request_failed" v.
Proof.
  destruct (chat TDifyChat sample_client unreachable
              (DifyRequest_new ∅ "q" "u" None None None).1 "A1"
              (DifyRequest_new ∅ "q" "u" None None None).2)
    as [[h' [r|url data]]|] eqn:Hchat; [|by vm_compute in Hchat..].
  destruct (blocking_failures_become_envelopes _ _ _ _ _ _ _ _ Hchat)
    as (url & data & Hr & Hraise & _).
  destruct (Hraise (Exn ConnectionError "connection refused" None)
              eq_refl eq_refl) as (v & -> & Henv).
  by exists v.
Defined.

Lemma truthy_py_or (a : pyval) (b : bool) :
  truthy (py_or a (PBool b)) = truthy a || b.
Proof. unfold py_or. by destruct (truthy a) eqn:Ha; [rewrite Ha|]. Qed.

Lemma py_eq_str_get (d : gmap string pyval) (k s : string) :
  py_eq_str (dict_get d k PNone) s = true ↔ d !! k = Some (PStr s).
Proof.
  unfold dict_get. destruct (d !! k) as [v|]; simpl; [|done].
  destruct v; simpl; try done.
  rewrite String.eqb_eq. split; [by intros ->|by intros [= ->]].
Qed.

(** C7 (as stated, refuted): the payload [{"stream": "no"}] takes the
    streaming path although its [stream] is not equal to [True] and it
    has no [response_mode]. *)
Lemma chat_universal_truthy_stream_not_true :
  ¬ (∀ h' r,
       chat_universal sample_client unreachable
         (<[1%positive := ODict (<["stream" := PStr "no"]> ∅)]> ∅)
         "A1" 1%positive = Some (h', r) →
       (is_stream r = true
        ↔ py_eq_True (dict_get (<["stream" := PStr "no"]> ∅) "stream"
                        (PBool false)) = true
          ∨ (<["stream" := PStr "no"]> ∅ : gmap string pyval)
              !! "response_mode" = Some (PStr "streaming"))).
Proof.
  intros Hclaim.
  destruct (Hclaim _ _ eq_refl) as [Hstream _].
  destruct (Hstream eq_refl) as [Htrue|Hmode].
  - discriminate Htrue.
  - by rewrite lookup_insert_ne in Hmode.
Qed.

(** C7 (amended): the universal adapter takes the streaming path if and
    only if the payload's [stream] value is truthy (an absent [stream]
    counts as [False]) or its [response_mode] equals ["streaming"]; in
    particular [response_mode] ["streaming"] alone is enough, and so is
    [stream] [True] alone. *)
Theorem chat_universal_streams_iff
    (self : DataFlowClient) (post : post_fn) (h : heap) (agent_id : string)
    (data : loc) (d : gmap string pyval) :
  h !! data = Some (ODict d) →
  ∃ h' r,
    chat_universal self post h agent_id data = Some (h', r)
    ∧ (is_stream r = true
       ↔ truthy (dict_get d "stream" (PBool false)) = true
         ∨ d !! "response_mode" = Some (PStr "streaming"))
    ∧ (d !! "stream" = None →
       d !! "response_mode" = Some (PStr "streaming") → is_stream r = true)
    ∧ (d !! "stream" = Some (PBool true) → is_stream r = true).
Proof.
  intros Hdata.
  assert (∀ h' r,
    chat_universal self post h agent_id data = Some (h', r) →
    is_stream r = true
    ↔ truthy (dict_get d "stream" (PBool false)) = true
      ∨ d !! "response_mode" = Some (PStr "streaming")) as Hiff.
  { intros h' r. unfold chat_universal. rewrite Hdata.
    rewrite truthy_py_or, <- (py_eq_str_get d). unfold dict_get.
    rewrite !lookup_insert_ne by done.
    destruct (truthy (default (PBool false) (d !! "stream")));
      destruct (py_eq_str _ _); cbn [orb]; intros Heq;
      injection Heq as <- <-; cbn [is_stream]; intuition congruence. }
  assert (is_Some (chat_universal self post h agent_id data)) as [[h' r] Hchat].
  { unfold chat_universal. rewrite Hdata.
    destruct (truthy (py_or _ _)); by eexists. }
  exists h', r. split; [done|]. split; [exact (Hiff _ _ Hchat)|]. split.
  - intros _ Hmode. apply (Hiff _ _ Hchat). by right.
  - intros Hstream. apply (Hiff _ _ Hchat). left.
    unfold dict_get. by rewrite Hstream.
Qed.

(** The payload [{"response_mode": "streaming"}], without [stream]. *)
Lemma chat_universal_response_mode_alone :
  ∃ h' r,
    chat_universal sample_client unreachable
      (<[1%positive := ODict (<["response_mode" := PStr "streaming"]> ∅)]> ∅)
      "A1" 1%positive = Some (h', r)
    ∧ is_stream r = true.
Proof.
  assert ((<[1%positive := ODict (<["response_mode" := PStr "streaming"]> ∅)]> ∅
           : heap) !! 1%positive
          = Some (ODict (<["response_mode" := PStr "streaming"]> ∅))) as Hdata
    by reflexivity.
  destruct (chat_universal_streams_iff sample_client unreachable _ "A1" _ _
              Hdata)
    as (h' & r & Hchat & _ & Hmode & _).
  exists h', r. split; [exact Hchat|]. by apply Hmode.
Defined.

Lemma has_query_app (a b : string) :
  has_query (a +:+ b) = has_query a || has_query b.
Proof.
  induction a as [|c a IH]; [done|].
  change (has_query (String c a +:+ b))
    with (Ascii.eqb c "?" || has_query (a +:+ b)).
  change (has_query (String c a)) with (Ascii.eqb c "?" || has_query a).
  by rewrite IH, orb_assoc.
Qed.

(** What [chat_dify_workflow] does on a well-typed request. *)
Lemma chat_dify_workflow_unfold (self : DataFlowClient) (post : post_fn)
    (h : heap) (agent_id : string) (request : loc) (r : DifyRequest)
    (d0 : gmap string pyval) :
  h !! request = Some (ODifyRequest r) →
  asdict_DifyRequest h r = Some d0 →
  let url := base_url self +:+ "/api/v1/dify/workflows/run" in
  let data := fresh (dom h) in
  let h' := <[data := ODict (<["agent_id" := PStr agent_id]> d0)]> h in
  chat_dify_workflow self post h agent_id request =
  Some (h', if String.eqb (response_mode r) "streaming"
            then RStream url data
            else RBlocking (_blocking_request post url data h')).
Proof.
  intros Hreq Hd. unfold chat_dify_workflow. rewrite Hreq, Hd.
  cbn [mbind option_bind]. unfold alloc. rewrite insert_insert_eq.
  by destruct (String.eqb _ _).
Qed.

Lemma asdict_DifyRequest_is_Some (h : heap) (r : DifyRequest) :
  is_Some (asdict_inputs h (inputs r)) → is_Some (asdict_DifyRequest h r).
Proof.
  intros [i Hi]. unfold asdict_DifyRequest. rewrite Hi. by eexists.
Qed.

(** C8: for every [DifyRequest] and [agent_id], the workflow adapter
    posts to [base_url + "/api/v1/dify/workflows/run"], to which it adds
    no query part, and the dict it passes as the JSON body, the copy of
    the request's fields, binds the key [agent_id] to the given
    [agent_id]. *)
Theorem chat_dify_workflow_endpoint_and_payload
    (self : DataFlowClient) (post : post_fn) (h : heap) (agent_id : string)
    (request : loc) (r : DifyRequest) :
  h !! request = Some (ODifyRequest r) →
  is_Some (asdict_inputs h (inputs r)) →
  ∃ h' res data d0,
    chat_dify_workflow self post h agent_id request = Some (h', res)
    ∧ (res = RStream (base_url self +:+ "/api/v1/dify/workflows/run") data
       ∨ res = RBlocking
                 (_blocking_request post
                    (base_url self +:+ "/api/v1/dify/workflows/run") data h'))
    ∧ has_query (base_url self +:+ "/api/v1/dify/workflows/run")
      = has_query (base_url self)
    ∧ asdict_DifyRequest h r = Some d0
    ∧ h' !! data = Some (ODict (<["agent_id" := PStr agent_id]> d0))
    ∧ (<["agent_id" := PStr agent_id]> d0) !! "agent_id"
      = Some (PStr agent_id).
Proof.
  intros Hreq Hin.
  destruct (asdict_DifyRequest_is_Some _ _ Hin) as [d0 Hd0].
  eexists _, _, (fresh (dom h)), d0.
  split; [exact (chat_dify_workflow_unfold self post h agent_id request r d0
                   Hreq Hd0)|].
  split; [destruct (String.eqb _ _); [by left|by right]|].
  split; [by rewrite has_query_app, orb_false_r|].
  split; [done|].
  split; apply lookup_insert_eq.
Qed.

(** The workflow adapter on a request built with the defaults and
    agent ["A2"]. *)
Lemma chat_dify_workflow_sample :
  ∃ h' res data d0,
    chat_dify_workflow sample_client unreachable
      (DifyRequest_new ∅ "q" "u" None None (Some "streaming")).1 "A2"
      (DifyRequest_new ∅ "q" "u" None None (Some "streaming")).2
    = Some (h', res)
    ∧ res = RStream "http://localhost:8082/api/v1/dify/workflows/run" data
    ∧ h' !! data = Some (ODict (<["agent_id" := PStr "A2"]> d0))
    ∧ (<["agent_id" := PStr "A2"]> d0) !! "agent_id" = Some (PStr "A2").
Proof.
  assert ((DifyRequest_new ∅ "q" "u" None None (Some "streaming")).1
          !! (DifyRequest_new ∅ "q" "u" None None (Some "streaming")).2
          = Some (ODifyRequest
                    {| query := "q"; user := "u"; conversation_id := "";
                       inputs := Some 2%positive;
                       response_mode := "streaming" |})) as Hreq
    by reflexivity.
  destruct (chat_dify_workflow_endpoint_and_payload sample_client unreachable
              _ "A2" _ _ Hreq ltac:(by eexists))
    as (h' & res & data & d0 & Hchat & Hres & _ & _ & Hdata & Hagent).
  exists h', res, data, d0. split; [exact Hchat|].
  split; [|by split].
  destruct Hres as [Hres|Hres]; [exact Hres|].
  rewrite Hres in Hchat. by vm_compute in Hchat.
Defined.

(** ** Construction of a [DifyRequest] *)

(** C9: a [DifyRequest] constructed without [inputs], or with
    [inputs=None], has in its [inputs] field a dict of its own that is
    empty, and [asdict] serializes the field as the empty mapping: the
    key [inputs] is present in the payload and bound to [{}], not to
    [None]. *)
Theorem DifyRequest_inputs_default
    (h : heap) (q u : string) (c : option string)
    (i : option (option loc)) (m : option string) :
  default None i = None →
  ∃ r d payload,
    (DifyRequest_new h q u c i m).1 !! (DifyRequest_new h q u c i m).2
      = Some (ODifyRequest r)
    ∧ inputs r = Some d
    ∧ h !! d = None
    ∧ (DifyRequest_new h q u c i m).1 !! d = Some (ODict ∅)
    ∧ asdict_DifyRequest (DifyRequest_new h q u c i m).1 r = Some payload
    ∧ payload !! "inputs" = Some (PDict ∅).
Proof.
  intros Hi. unfold DifyRequest_new, alloc. rewrite Hi.
  set (self := fresh (dom h)).
  set (r0 := {| query := q; user := u;
                conversation_id := default "" c;
                inputs := None;
                response_mode := default "blocking" m |}).
  set (h1 := <[self := ODifyRequest r0]> h).
  cbn [fst snd]. unfold DifyRequest__post_init__.
  assert (h1 !! self = Some (ODifyRequest r0)) as -> by apply lookup_insert_eq.
  cbn [inputs r0]. unfold alloc.
  set (d := fresh (dom h1)).
  assert (h1 !! d = None) as Hd by apply not_elem_of_dom, is_fresh.
  assert (d ≠ self) as Hne.
  { intros ->. unfold h1 in Hd. by rewrite lookup_insert_eq in Hd. }
  assert (h !! d = None) as Hd0.
  { unfold h1 in Hd. by rewrite lookup_insert_ne in Hd. }
  eexists _, d, _. split; [apply lookup_insert_eq|].
  split; [done|]. split; [done|].
  assert (<[self := ODifyRequest
                      {| query := query r0; user := user r0;
                         conversation_id := conversation_id r0;
                         inputs := Some d;
                         response_mode := response_mode r0 |}]>
            (<[d := ODict ∅]> h1) !! d = Some (ODict ∅)) as Hlook.
  { rewrite lookup_insert_ne by done. apply lookup_insert_eq. }
  split; [exact Hlook|].
  unfold asdict_DifyRequest, asdict_inputs. cbn [inputs].
  rewrite Hlook. cbn [mbind option_bind].
  split; [reflexivity|].
  rewrite !lookup_insert_ne by done. apply lookup_insert_eq.
Qed.

(** [DifyRequest(query="q", user="u")]. *)
Lemma DifyRequest_inputs_default_sample :
  ∃ r d (payload : gmap string pyval),
    (DifyRequest_new ∅ "q" "u" None None None).1
      !! (DifyRequest_new ∅ "q" "u" None None None).2
      = Some (ODifyRequest r)
    ∧ inputs r = Some d
    ∧ (DifyRequest_new ∅ "q" "u" None None None).1 !! d = Some (ODict ∅)
    ∧ payload !! "inputs" = Some (PDict ∅).
Proof.
  destruct (DifyRequest_inputs_default ∅ "q" "u" None None None eq_refl)
    as (r & d & payload & Hr & Hd & _ & Hempty & _ & Hpayload).
  by exists r, d, payload.
Defined.

(** ** Who owns the payload *)





(** ** Sample runs *)

(** A body that breaks after its first frame: the event, then the
    envelope, then the end. *)
Example stream_broken_after_first_frame :
  _stream_request MiniJson.loads
    (always (PostReturns
               (stream_response 200 (take 1 sample_lines)
                  (Some (Exn ChunkedEncodingError "connection broken" None)))))
    "http://localhost:8082/api/v1/chat" 1%positive ∅
  = GYield (StreamEvent (MiniJson.JObj [([97%N], MiniJson.JNum 1)]))
      (GYield (ErrorEnvelope
                 (error_envelope "stream_failed"
                    (Exn ChunkedEncodingError "connection broken" None)))
         GStop).
Proof. reflexivity. Qed.

(** A streaming request answered with 503: one envelope carrying the
    status. *)
Example stream_status_503 :
  envelope_status_code
    (error_envelope "stream_failed"
       (Exn HTTPError "503 Server Error:  for url: " (Some 503%Z)))
  = Some (PInt 503)
  ∧ _stream_request MiniJson.loads
      (always (PostReturns (stream_response 503 sample_lines None)))
      "http://localhost:8082/api/v1/chat" 1%positive ∅
    = GYield (ErrorEnvelope
                (error_envelope "stream_failed"
                   (Exn HTTPError "503 Server Error:  for url: " (Some 503%Z))))
        GStop.
Proof. split; [apply envelope_status_code_bound | reflexivity]. Qed.

(** A line that is not UTF-8 is outside the text lines the decoder
    theorem speaks of: [line.decode('utf-8')] raises, the exception is no
    RequestException, and it leaves the generator. *)
Example stream_line_not_utf8 :
  _stream_request MiniJson.loads
    (always (PostReturns
               (stream_response 200
                  ["data: " +:+ String "255"%char EmptyString] None)))
    "http://localhost:8082/api/v1/chat" 1%positive ∅
  = GRaise (Exn UnicodeDecodeError "invalid utf-8" None).
Proof. reflexivity. Qed.

(** The Dify chat adapter of the specification's example: the agent in
    the query string, the streaming path. *)
Example chat_dify_sample :
  snd <$> chat_dify sample_client unreachable
            (DifyRequest_new ∅ "q" "u" None None (Some "streaming")).1 "A1"
            (DifyRequest_new ∅ "q" "u" None None (Some "streaming")).2
  = Some (RStream "http://localhost:8082/api/v1/dify/chat-messages?agent_id=A1"
            3%positive).
Proof. reflexivity. Qed.

(** [rstrip('/')] of the base URL. *)
Example rstrip_slash_sample : rstrip_slash "http://h:1//" = "http://h:1".
Proof. reflexivity. Qed.

(** * Further properties of the client *)

(** ** Construction of the client *)

Lemma last_char_cons (c : ascii) (s : string) :
  s ≠ "" → last_char (String c s) = last_char s.
Proof. by destruct s. Qed.

(** X1: [rstrip('/')], as applied to the base URL, removes a run of
    slashes at the end of the string and nothing else, and what is left
    does not end in a slash. *)
Theorem rstrip_slash_spec (s : string) :
  (∃ n, s = rstrip_slash s +:+ slashes n)
  ∧ last_char (rstrip_slash s) ≠ Some "/"%char.
Proof.
  induction s as [|c s [[n Hn] Hlast]]; [by split; [exists 0|]|].
  cbn [rstrip_slash]. destruct (rstrip_slash s) as [|c' t] eqn:Hr.
  - destruct (Ascii.eqb_spec c "/") as [->|Hc].
    + split; [|done]. exists (S n). cbn. by rewrite Hn at 1.
    + split; [|by intros [= ->]]. exists n. cbn. by rewrite Hn at 1.
  - split.
    + exists n. cbn. by rewrite Hn at 1.
    + by rewrite last_char_cons.
Qed.

Lemma lower_literals :
  lower "Authorization" = "authorization"
  ∧ lower "X-User-ID" = "x-user-id"
  ∧ lower "Content-Type" = "content-type"
  ∧ lower "User-Agent" = "user-agent".
Proof. by repeat split. Qed.

(** X2: the headers [__init__] leaves on the session.  [Content-Type]
    and [User-Agent] are always set, replacing what the session had;
    [Authorization] is set to the bearer token exactly when an API key is
    given and is not empty, and [X-User-ID] exactly when a user id is
    given and is not empty; every other header of the session is left as
    it was. *)
Theorem session_headers_spec
    (dflt : headers) (api_key user_id : option string) :
  headers_get (session_headers dflt api_key user_id) "Content-Type"
    = Some "application/json"
  ∧ headers_get (session_headers dflt api_key user_id) "User-Agent"
    = Some "DataFlow-Python-Client/1.0"
  ∧ headers_get (session_headers dflt api_key user_id) "Authorization"
    = (if str_truthy api_key
       then Some ("Bearer " +:+ default "" api_key)
       else headers_get dflt "Authorization")
  ∧ headers_get (session_headers dflt api_key user_id) "X-User-ID"
    = (if str_truthy user_id
       then Some (default "" user_id)
       else headers_get dflt "X-User-ID")
  ∧ (∀ k, lower k ≠ "content-type" → lower k ≠ "user-agent" →
          lower k ≠ "authorization" → lower k ≠ "x-user-id" →
          headers_get (session_headers dflt api_key user_id) k
          = headers_get dflt k).
Proof.
  destruct lower_literals as (Ha & Hx & Hc & Hu).
  unfold session_headers, headers_get, headers_update, headers_set.
  cbn [foldl fst snd]. rewrite Ha, Hx, Hc, Hu.
  repeat split.
  - by rewrite lookup_insert_ne, lookup_insert_eq.
  - by rewrite lookup_insert_eq.
  - rewrite !lookup_insert_ne by done.
    destruct (str_truthy user_id); destruct (str_truthy api_key);
      cbn [foldl fst snd]; rewrite ?Ha, ?Hx;
      by rewrite ?(lookup_insert_ne _ "x-user-id"), ?lookup_insert_eq.
  - rewrite !lookup_insert_ne by done.
    destruct (str_truthy user_id); destruct (str_truthy api_key);
      cbn [foldl fst snd]; rewrite ?Ha, ?Hx;
      by rewrite ?lookup_insert_eq, ?(lookup_insert_ne _ "authorization").
  - intros k Hk1 Hk2 Hk3 Hk4. rewrite !lookup_insert_ne by done.
    destruct (str_truthy user_id); destruct (str_truthy api_key);
      cbn [foldl fst snd]; rewrite ?Ha, ?Hx;
      by rewrite ?lookup_insert_ne.
Qed.

(** ** Health check and service information *)

(** X3: [health_check] fetches [base_url + "/api/v1/health"].  When the
    GET raises a RequestException or the status is 4xx or 5xx it returns
    the dict with exactly the keys [error], bound to the text of the
    exception, and [status], bound to ["unhealthy"]; this is not the
    error envelope of the chat requests.  When the status is another one
    and the body parses, it returns the parsed body.  No RequestException
    leaves it. *)
Theorem health_check_spec (self : DataFlowClient) (get : get_fn) :
  (∀ e, get_body get (base_url self +:+ "/api/v1/health") = Exc e →
        is_RequestException (exn_cls e) = true →
        ∃ d, health_check self get = Ret (PDict d)
             ∧ d !! "error" = Some (PStr (exn_message e))
             ∧ d !! "status" = Some (PStr "unhealthy")
             ∧ dom d = {["error"; "status"]}
             ∧ ∀ type, ¬ is_error_envelope type (PDict d))
  ∧ (∀ response, get (base_url self +:+ "/api/v1/health") = PostReturns response →
        (400 ≤ status_code response < 600)%Z →
        ∃ e, get_body get (base_url self +:+ "/api/v1/health") = Exc e
             ∧ exn_cls e = HTTPError)
  ∧ (∀ response v, get (base_url self +:+ "/api/v1/health") = PostReturns response →
        (status_code response < 400 ∨ 600 ≤ status_code response)%Z →
        json_result response = Ret v →
        health_check self get = Ret v)
  ∧ (∀ e, health_check self get = Exc e →
        is_RequestException (exn_cls e) = false).
Proof.
  unfold health_check. repeat split.
  - intros e -> ->. eexists. split; [done|].
    split; [apply lookup_insert_eq|].
    split; [by rewrite lookup_insert_ne, lookup_insert_eq|].
    split; [by rewrite !dom_insert_L, dom_empty_L, union_empty_r_L|].
    intros type (top & err & [= <-] & Herr & _).
    by rewrite lookup_insert_eq in Herr.
  - intros response Hget Hstatus. unfold get_body. rewrite Hget.
    destruct (raise_for_status_error response Hstatus) as [msg ->].
    by eexists.
  - intros response v Hget Hstatus Hjson. unfold get_body.
    by rewrite Hget, (raise_for_status_ok _ Hstatus), Hjson.
  - intros e. destruct (get_body _ _) as [v|e']; [done|].
    destruct (is_RequestException (exn_cls e')) eqn:Hc; [done|].
    by intros [= <-].
Qed.

(** The health check of an unreachable service. *)
Lemma health_check_unreachable :
  ∃ d, health_check sample_client
         (λ _, PostRaises (Exn ConnectionError "connection refused" None))
       = Ret (PDict d)
       ∧ d !! "error" = Some (PStr "connection refused")
       ∧ d !! "status" = Some (PStr "unhealthy").
Proof.
  destruct (proj1 (health_check_spec sample_client
              (λ _, PostRaises (Exn ConnectionError "connection refused" None)))
              (Exn ConnectionError "connection refused" None)
              eq_refl eq_refl)
    as (d & Hd & Herr & Hstatus & _).
  by exists d.
Defined.

(** X4: [get_service_info] fetches [base_url + "/"].  On a
    RequestException it returns the dict whose only key is [error], bound
    to the text of the exception (no [status] key, unlike the health
    check); otherwise the parsed body.  No RequestException leaves it. *)
Theorem get_service_info_spec (self : DataFlowClient) (get : get_fn) :
  (∀ e, get_body get (base_url self +:+ "/") = Exc e →
        is_RequestException (exn_cls e) = true →
        ∃ d, get_service_info self get = Ret (PDict d)
             ∧ d !! "error" = Some (PStr (exn_message e))
             ∧ dom d = {["error"]}
             ∧ ∀ type, ¬ is_error_envelope type (PDict d))
  ∧ (∀ response v, get (base_url self +:+ "/") = PostReturns response →
        (status_code response < 400 ∨ 600 ≤ status_code response)%Z →
        json_result response = Ret v →
        get_service_info self get = Ret v)
  ∧ (∀ e, get_service_info self get = Exc e →
        is_RequestException (exn_cls e) = false).
Proof.
  unfold get_service_info. repeat split.
  - intros e -> ->. eexists. split; [done|].
    split; [apply lookup_insert_eq|].
    split; [by rewrite dom_insert_L, dom_empty_L, union_empty_r_L|].
    intros type (top & err & [= <-] & Herr & _).
    by rewrite lookup_insert_eq in Herr.
  - intros response v Hget Hstatus Hjson. unfold get_body.
    by rewrite Hget, (raise_for_status_ok _ Hstatus), Hjson.
  - intros e. destruct (get_body _ _) as [v|e']; [done|].
    destruct (is_RequestException (exn_cls e')) eqn:Hc; [done|].
    by intros [= <-].
Qed.

(** The service information of a server that answers 500. *)
Lemma get_service_info_500 :
  ∃ d, get_service_info sample_client
         (λ _, PostReturns (json_response 500 (Ret PNone)))
       = Ret (PDict d)
       ∧ dom d = {["error"]}.
Proof.
  destruct (proj1 (get_service_info_spec sample_client
              (λ _, PostReturns (json_response 500 (Ret PNone))))
              (Exn HTTPError "500 Server Error:  for url: " (Some 500%Z))
              eq_refl eq_refl)
    as (d & Hd & _ & Hdom & _).
  by exists d.
Defined.

(** The client built with an API key and the default session headers of
    no interest here: [Accept] is untouched. *)
Lemma session_headers_sample :
  headers_get
    (session_headers (<["accept" := ("Accept", "*/*")]> ∅) (Some "k") (Some ""))
    "Accept"
  = headers_get (<["accept" := ("Accept", "*/*")]> (∅ : headers)) "Accept".
Proof.
  apply (proj2 (proj2 (proj2 (proj2
           (session_headers_spec (<["accept" := ("Accept", "*/*")]> ∅)
              (Some "k") (Some ""))))));
    by vm_compute.
Defined.

(** ** More on the blocking request *)

(** X5: a blocking call through any public chat operation that is
    answered with a status outside 400..599 and a body that parses
    returns the parsed body as it is. *)
Theorem blocking_success_passthrough
    (t : chat_type) (self : DataFlowClient) (post : post_fn) (h : heap)
    (agent_id : string) (arg : loc) (h' : heap) (r : result pyval) :
  chat t self post h agent_id arg = Some (h', RBlocking r) →
  ∃ url data,
    r = _blocking_request post url data h'
    ∧ ∀ response v,
        post url data false h' = PostReturns response →
        (status_code response < 400 ∨ 600 ≤ status_code response)%Z →
        json_result response = Ret v →
        r = Ret v.
Proof.
  intros Hchat.
  destruct (chat_blocking_result _ _ _ _ _ _ _ _ Hchat) as (url & data & ->).
  exists url, data. split; [done|].
  intros response v Hpost Hstatus Hjson.
  unfold _blocking_request, blocking_body.
  by rewrite Hpost, (raise_for_status_ok _ Hstatus), Hjson.
Qed.

(** A blocking universal call answered with 200 and a JSON body. *)
Lemma blocking_success_sample :
  ∃ h', chat TUniversal sample_client
          (always (PostReturns (json_response 200 (Ret (PInt 7)))))
          (<[1%positive := ODict ∅]> ∅) "A1" 1%positive
        = Some (h', RBlocking (Ret (PInt 7))).
Proof.
  destruct (chat TUniversal sample_client
              (always (PostReturns (json_response 200 (Ret (PInt 7)))))
              (<[1%positive := ODict ∅]> ∅) "A1" 1%positive)
    as [[h' [r|url data]]|] eqn:Hchat; [|by vm_compute in Hchat..].
  destruct (blocking_success_passthrough _ _ _ _ _ _ _ _ Hchat)
    as (url & data & _ & Hpass).
  rewrite (Hpass (json_response 200 (Ret (PInt 7))) (PInt 7) eq_refl
             ltac:(left; reflexivity) eq_refl).
  by exists h'.
Defined.

(** X6: the shape of the envelope.  Whenever the [try] block of the
    blocking request ends in a RequestException, the value returned is a
    dict whose only key is [error], bound to a dict with exactly the keys
    [type], [message] and [status_code]; [message] is the text of the
    exception, and [status_code] is the status of the response attached
    to it, or [None]. *)
Theorem blocking_envelope_shape
    (post : post_fn) (url : string) (data : loc) (h : heap) (e : exn) :
  blocking_body post url data h = Exc e →
  is_RequestException (exn_cls e) = true →
  ∃ top err,
    _blocking_request post url data h = Ret (PDict top)
    ∧ dom top = {["error"]}
    ∧ top !! "error" = Some (PDict err)
    ∧ dom err = {["type"; "message"; "status_code"]}
    ∧ err !! "type" = Some (PStr "request_failed")
    ∧ err !! "message" = Some (PStr (exn_message e))
    ∧ err !! "status_code" = Some (from_option PInt PNone (exn_response e)).
Proof.
  intros Hbody Hcls.
  exists (<["error" := PDict (error_dict "request_failed" e)]> ∅),
         (error_dict "request_failed" e).
  split; [by apply blocking_request_caught|].
  split; [by rewrite dom_insert_L, dom_empty_L, union_empty_r_L|].
  split; [apply lookup_insert_eq|].
  unfold error_dict, status_code_attr. rewrite Hcls.
  split; [by rewrite !dom_insert_L, dom_empty_L, union_empty_r_L|].
  split; [apply lookup_insert_eq|].
  split; [by rewrite lookup_insert_ne, lookup_insert_eq|].
  rewrite lookup_insert_ne by done. rewrite lookup_insert_ne by done.
  apply lookup_insert_eq.
Qed.

(** The envelope of a timeout. *)
Lemma blocking_envelope_timeout :
  ∃ top err,
    _blocking_request (always (PostRaises (Exn Timeout "read timed out" None)))
      "http://localhost:8082/api/v1/chat" 1%positive ∅ = Ret (PDict top)
    ∧ top !! "error" = Some (PDict err)
    ∧ err !! "message" = Some (PStr "read timed out").
Proof.
  destruct (blocking_envelope_shape
              (always (PostRaises (Exn Timeout "read timed out" None)))
              "http://localhost:8082/api/v1/chat" 1%positive ∅
              (Exn Timeout "read timed out" None) eq_refl eq_refl)
    as (top & err & Hr & _ & Htop & _ & _ & Hmsg & _).
  by exists top, err.
Defined.

(** ** More on the streaming request *)

Section DecoderFacts.

Context {J : Type}.
Variable json_loads : Text.text → option J.

(** What the handler does to the items and to the exception of the
    body. *)
Lemma except_yielded (g : gen (item J)) :
  yielded (except_RequestException g) =
  (yielded g ++
   match escaped g with
   | Some e =>
     if is_RequestException (exn_cls e)
     then [ErrorEnvelope (error_envelope "stream_failed" e)]
     else []
   | None => []
   end)%list.
Proof.
  induction g as [a k IH| |e]; cbn [except_RequestException yielded escaped].
  - by rewrite IH.
  - done.
  - by destruct (is_RequestException (exn_cls e)).
Qed.

Lemma except_escaped (g : gen (item J)) :
  escaped (except_RequestException g) =
  match escaped g with
  | Some e => if is_RequestException (exn_cls e) then None else Some e
  | None => None
  end.
Proof.
  induction g as [a k IH| |e]; cbn [except_RequestException escaped];
    [done|done|].
  by destruct (is_RequestException (exn_cls e)).
Qed.

(** The loop itself yields events only. *)
Lemma decode_lines_envelopes (ls : list string) (fin : option exn) :
  envelopes (decode_lines json_loads ls fin) = [].
Proof.
  induction ls as [|b ls IH]; cbn [decode_lines].
  - by destruct fin.
  - destruct (String.eqb b ""); [exact IH|].
    destruct (Utf8.decode b) as [t|]; [|done].
    destruct (Text.startswith data_prefix t); [|exact IH].
    destruct (Text.eqb _ _); [done|].
    destruct (json_loads _); exact IH.
Qed.

(** The loop is online: what it emits for the first lines does not
    depend on what comes after them. *)
Lemma decode_lines_prefix (l1 l2 : list string) (fin1 fin2 : option exn) :
  events (decode_lines json_loads l1 fin1)
  `prefix_of` events (decode_lines json_loads (l1 ++ l2)%list fin2).
Proof.
  induction l1 as [|b l1 IH]; cbn [app decode_lines].
  - destruct fin1; apply prefix_nil.
  - destruct (String.eqb b ""); [exact IH|].
    destruct (Utf8.decode b) as [t|]; [|done].
    destruct (Text.startswith data_prefix t); [|exact IH].
    destruct (Text.eqb _ _); [done|].
    destruct (json_loads _); [|exact IH].
    rewrite !events_event. by apply prefix_cons.
Qed.

(** A line the loop passes over can be taken out of the stream. *)
Lemma decode_lines_skip (l1 l2 : list string) (b : string) (fin : option exn) :
  skipped_line json_loads b = true →
  decode_lines json_loads (l1 ++ b :: l2)%list fin
  = decode_lines json_loads (l1 ++ l2)%list fin.
Proof.
  intros Hb. induction l1 as [|a l1 IH]; cbn [app decode_lines].
  - unfold skipped_line in Hb. destruct (String.eqb b ""); [done|].
    cbn [orb] in Hb. destruct (Utf8.decode b) as [t|]; [|done].
    unfold frame_payload, is_done in Hb.
    destruct (Text.startswith data_prefix t); [|done].
    destruct (Text.eqb _ _); [done|].
    destruct (json_loads _); [|done].
    by rewrite bool_decide_eq_true_2 in Hb by (by eexists).
  - by rewrite IH.
Qed.


(** At most one event for each line. *)
Lemma decode_lines_length (ls : list string) (fin : option exn) :
  (length (yielded (decode_lines json_loads ls fin)) ≤ length ls)%nat.
Proof.
  induction ls as [|b ls IH]; cbn [decode_lines length].
  - destruct fin; cbn; lia.
  - destruct (String.eqb b ""); [lia|].
    destruct (Utf8.decode b) as [t|]; [|cbn; lia].
    destruct (Text.startswith data_prefix t); [|lia].
    destruct (Text.eqb _ _); [cbn; lia|].
    destruct (json_loads _); [cbn [yielded length]; lia|lia].
Qed.

End DecoderFacts.


Lemma omap_length_le {A B} (f : A → option B) (l : list A) :
  (length (omap f l) ≤ length l)%nat.
Proof.
  induction l as [|a l IH]; [done|].
  cbn [omap list_omap length]. destruct (f a); cbn [length]; lia.
Qed.

Lemma envelopes_app {J} (l : list J) (v : pyval) :
  omap (λ i : item J,
          match i with StreamEvent _ => None | ErrorEnvelope v => Some v end)
       ((StreamEvent <$> l) ++ [ErrorEnvelope v])%list = [v].
Proof. induction l as [|j l IH]; [done|exact IH]. Qed.

(** The [try] block of the streaming request yields events only. *)
Lemma stream_body_envelopes {J} (json_loads : Text.text → option J)
    (post : post_fn) (url : string) (data : loc) (h : heap) :
  envelopes (stream_body json_loads post url data h) = [].
Proof.
  unfold stream_body. destruct (post url data true h) as [e|response]; [done|].
  destruct (raise_for_status response); [done|].
  apply decode_lines_envelopes.
Qed.


(** X7: a streaming request answered with a 4xx or 5xx status yields
    one error envelope of type [stream_failed] whose [status_code] is
    that status, and returns; the body is not read. *)
Theorem stream_http_error_status
    (J : Type) (json_loads : Text.text → option J) (post : post_fn)
    (url : string) (data : loc) (h : heap) (response : Response) :
  post url data true h = PostReturns response →
  (400 ≤ status_code response < 600)%Z →
  ∃ v, _stream_request json_loads post url data h
       = GYield (ErrorEnvelope v) GStop
       ∧ is_error_envelope "stream_failed" v
       ∧ envelope_status_code v = Some (PInt (status_code response)).
Proof.
  intros Hpost Hstatus.
  destruct (raise_for_status_error response Hstatus) as [msg Hraise].
  eexists. unfold _stream_request, stream_body. rewrite Hpost, Hraise.
  split; [reflexivity|].
  split; [apply error_envelope_is_envelope|].
  by rewrite envelope_status_code_bound.
Qed.

(** A stream answered with 401. *)
Lemma stream_http_error_401 :
  ∃ v, _stream_request MiniJson.loads
         (always (PostReturns (stream_response 401 sample_lines None)))
         "http://localhost:8082/api/v1/chat" 1%positive ∅
       = GYield (ErrorEnvelope v) GStop
       ∧ envelope_status_code v = Some (PInt 401).
Proof.
  destruct (stream_http_error_status MiniJson.json MiniJson.loads
              (always (PostReturns (stream_response 401 sample_lines None)))
              "http://localhost:8082/api/v1/chat" 1%positive ∅
              (stream_response 401 sample_lines None) eq_refl
              ltac:(cbn; lia))
    as (v & Hv & _ & Hstatus).
  by exists v.
Defined.



(** X9: the decoder is online.  The events of a stream are a prefix of
    the events of every stream that continues it, however either body
    ends. *)
Theorem stream_events_prefix
    (J : Type) (json_loads : Text.text → option J) (url : string)
    (data : loc) (h : heap) (response : Response) (l1 l2 : list string)
    (fin1 fin2 : option exn) :
  events (_stream_request json_loads
            (always (PostReturns (with_lines response l1 fin1))) url data h)
  `prefix_of`
  events (_stream_request json_loads
            (always (PostReturns (with_lines response (l1 ++ l2)%list fin2)))
            url data h).
Proof.
  unfold _stream_request, stream_body, always. rewrite !except_events.
  change (raise_for_status (with_lines response l1 fin1))
    with (raise_for_status response).
  change (raise_for_status (with_lines response (l1 ++ l2)%list fin2))
    with (raise_for_status response).
  destruct (raise_for_status response); [done|].
  apply decode_lines_prefix.
Qed.

(** X10: a line the loop passes over (a blank line, a line without the
    ["data: "] prefix, a frame whose payload is not the sentinel and does
    not parse) can be taken out of the stream without changing the
    sequence. *)
Theorem stream_skipped_line_removable
    (J : Type) (json_loads : Text.text → option J) (url : string)
    (data : loc) (h : heap) (response : Response) (l1 l2 : list string)
    (b : string) (fin : option exn) :
  skipped_line json_loads b = true →
  _stream_request json_loads
    (always (PostReturns (with_lines response (l1 ++ b :: l2)%list fin)))
    url data h
  = _stream_request json_loads
      (always (PostReturns (with_lines response (l1 ++ l2)%list fin)))
      url data h.
Proof.
  intros Hb. unfold _stream_request, stream_body, always.
  change (raise_for_status (with_lines response (l1 ++ b :: l2)%list fin))
    with (raise_for_status response).
  change (raise_for_status (with_lines response (l1 ++ l2)%list fin))
    with (raise_for_status response).
  destruct (raise_for_status response); [done|].
  cbn [lines lines_error with_lines]. by rewrite decode_lines_skip.
Qed.

(** An [event:] line between two frames. *)
Lemma stream_skipped_event_line :
  _stream_request MiniJson.loads
    (always (PostReturns
       (with_lines (stream_response 200 [] None)
          (take 1 sample_lines ++ "event: ping" :: drop 3 sample_lines)%list
          None)))
    "http://localhost:8082/api/v1/chat" 1%positive ∅
  = _stream_request MiniJson.loads
      (always (PostReturns
         (with_lines (stream_response 200 [] None)
            (take 1 sample_lines ++ drop 3 sample_lines)%list None)))
      "http://localhost:8082/api/v1/chat" 1%positive ∅.
Proof.
  exact (stream_skipped_line_removable MiniJson.json MiniJson.loads _ _ _
           (stream_response 200 [] None) (take 1 sample_lines)
           (drop 3 sample_lines) "event: ping" None eq_refl).
Defined.



(** X12: whatever the server does, an exception that leaves the
    streaming generator is not a RequestException, the sequence holds at
    most one error envelope, and it holds none when an exception leaves
    the generator. *)
Theorem stream_escape_and_envelopes
    (J : Type) (json_loads : Text.text → option J) (post : post_fn)
    (url : string) (data : loc) (h : heap) :
  (∀ e, escaped (_stream_request json_loads post url data h) = Some e →
        is_RequestException (exn_cls e) = false
        ∧ envelopes (_stream_request json_loads post url data h) = [])
  ∧ (length (envelopes (_stream_request json_loads post url data h)) ≤ 1)%nat.
Proof.
  pose proof (stream_body_envelopes json_loads post url data h) as Hnone.
  unfold _stream_request, envelopes in *.
  rewrite except_escaped, except_yielded, omap_app, Hnone.
  destruct (escaped (stream_body json_loads post url data h)) as [e'|].
  - destruct (is_RequestException (exn_cls e')) eqn:Hc.
    + split; [done|]. cbn. lia.
    + split; [|cbn; lia]. by intros e [= <-].
  - split; [done|]. cbn. lia.
Qed.



(** X15: a stream never yields more events than it has lines, and never
    more items than lines plus the one envelope. *)
Theorem stream_length_bound
    (J : Type) (json_loads : Text.text → option J) (post : post_fn)
    (url : string) (data : loc) (h : heap) (response : Response) :
  post url data true h = PostReturns response →
  (length (events (_stream_request json_loads post url data h))
   ≤ length (lines response))%nat
  ∧ (length (yielded (_stream_request json_loads post url data h))
     ≤ S (length (lines response)))%nat.
Proof.
  intros Hpost.
  assert (length (yielded (stream_body json_loads post url data h))
          ≤ length (lines response))%nat as Hbody.
  { unfold stream_body. rewrite Hpost.
    destruct (raise_for_status response); [cbn; lia|].
    apply decode_lines_length. }
  unfold _stream_request. split.
  - rewrite except_events. unfold events.
    etrans; [apply omap_length_le|exact Hbody].
  - rewrite except_yielded, length_app.
    destruct (escaped _) as [e|]; [|cbn; lia].
    destruct (is_RequestException (exn_cls e)); cbn; lia.
Qed.

(** The six sample lines give at most six events. *)
Lemma stream_length_sample :
  (length (events (_stream_request MiniJson.loads
                     (always (PostReturns (stream_response 200 sample_lines None)))
                     "http://localhost:8082/api/v1/chat" 1%positive ∅))
   ≤ 6)%nat.
Proof.
  exact (proj1 (stream_length_bound MiniJson.json MiniJson.loads
                  (always (PostReturns (stream_response 200 sample_lines None)))
                  "http://localhost:8082/api/v1/chat" 1%positive ∅
                  (stream_response 200 sample_lines None) eq_refl)).
Defined.

(** A stream whose only line is not UTF-8: the exception that leaves the
    generator is no RequestException. *)
Lemma stream_escape_sample :
  is_RequestException UnicodeDecodeError = false
  ∧ envelopes (_stream_request MiniJson.loads
                 (always (PostReturns
                    (stream_response 200
                       ["data: " +:+ String "255"%char EmptyString] None)))
                 "http://localhost:8082/api/v1/chat" 1%positive ∅) = [].
Proof.
  exact (proj1 (stream_escape_and_envelopes MiniJson.json MiniJson.loads
                  (always (PostReturns
                     (stream_response 200
                        ["data: " +:+ String "255"%char EmptyString] None)))
                  "http://localhost:8082/api/v1/chat" 1%positive ∅)
               (Exn UnicodeDecodeError "invalid utf-8" None) eq_refl).
Defined.

(** ** The completion sentinel *)

Lemma text_eqb_eq (s t : Text.text) : Text.eqb s t = true ↔ s = t.
Proof.
  revert t. induction s as [|a s IH]; intros [|b t]; cbn [Text.eqb];
    try (split; [discriminate|done]).
  - done.
  - rewrite andb_true_iff, N.eqb_eq, IH. split; [by intros [-> ->]|].
    by intros [= -> ->].
Qed.

Lemma lstrip_app_space (a s : Text.text) :
  Forall (λ c, Text.isspace c = true) a →
  Text.lstrip (a ++ s)%list = Text.lstrip s.
Proof.
  induction 1 as [|c a Hc _ IH]; [done|].
  cbn [app Text.lstrip]. by rewrite Hc.
Qed.

Lemma lstrip_spec (s : Text.text) :
  ∃ a, Forall (λ c, Text.isspace c = true) a ∧ s = (a ++ Text.lstrip s)%list.
Proof.
  induction s as [|c s (a & Ha & Hs)]; [by exists []|].
  cbn [Text.lstrip]. destruct (Text.isspace c) eqn:Hc.
  - exists (c :: a). split; [by constructor|]. cbn [app]. by rewrite <- Hs.
  - by exists [].
Qed.

(** X14: the completion test [data_str.strip() == '[DONE]'] accepts
    exactly the payloads made of ["[DONE]"] with white space, and nothing
    else, before and after it. *)
Theorem is_done_iff (p : Text.text) :
  is_done p = true
  ↔ ∃ a b, Forall (λ c, Text.isspace c = true) a
           ∧ Forall (λ c, Text.isspace c = true) b
           ∧ p = (a ++ done_sentinel ++ b)%list.
Proof.
  unfold is_done. rewrite text_eqb_eq. unfold Text.strip, Text.rstrip. split.
  - intros Hstrip.
    destruct (lstrip_spec p) as (a & Ha & Hp).
    destruct (lstrip_spec (rev (Text.lstrip p))) as (b & Hb & Hm).
    exists a, (rev b). split; [done|]. split; [by apply Forall_rev|].
    rewrite Hp at 1. f_equal.
    rewrite <- (rev_involutive (Text.lstrip p)), Hm, rev_app_distr.
    by rewrite Hstrip.
  - intros (a & b & Ha & Hb & ->).
    rewrite (lstrip_app_space a _ Ha).
    change (Text.lstrip (done_sentinel ++ b)%list) with (done_sentinel ++ b)%list.
    rewrite rev_app_distr, (lstrip_app_space (rev b)) by (by apply Forall_rev).
    reflexivity.
Qed.

(** ["  [DONE] "] between two spaces and a tab is the sentinel. *)
Lemma is_done_padded :
  is_done (Text.of_string "  " ++ done_sentinel ++ [9%N])%list = true.
Proof.
  apply (proj2 (is_done_iff _)).
  exists (Text.of_string "  "), [9%N]. by repeat constructor.
Defined.

(** ** More on the adapters *)

Lemma has_query_agent (base path agent_id : string) :
  has_query path = true → has_query (base +:+ path +:+ agent_id) = true.
Proof.
  intros Hp. by rewrite !has_query_app, Hp, orb_true_r.
Qed.

(** What [chat_openai] does on an [OpenAIRequest]. *)
Lemma chat_openai_unfold (self : DataFlowClient) (post : post_fn) (h : heap)
    (agent_id : string) (request : loc) (r : OpenAIRequest) :
  h !! request = Some (OOpenAIRequest r) →
  let url := base_url self +:+ "/api/v1/openai/chat/completions?agent_id="
             +:+ agent_id in
  let data := fresh (dom h) in
  let h' := <[data := ODict (asdict_OpenAIRequest r)]> h in
  chat_openai self post h agent_id request =
  Some (h', if stream r then RStream url data
            else RBlocking (_blocking_request post url data h')).
Proof.
  intros Hreq. unfold chat_openai. rewrite Hreq. unfold alloc.
  by destruct (stream r).
Qed.

(** What [chat_dify] does on a well-typed [DifyRequest]. *)
Lemma chat_dify_unfold (self : DataFlowClient) (post : post_fn) (h : heap)
    (agent_id : string) (request : loc) (r : DifyRequest)
    (d0 : gmap string pyval) :
  h !! request = Some (ODifyRequest r) →
  asdict_DifyRequest h r = Some d0 →
  let url := base_url self +:+ "/api/v1/dify/chat-messages?agent_id="
             +:+ agent_id in
  let data := fresh (dom h) in
  let h' := <[data := ODict d0]> h in
  chat_dify self post h agent_id request =
  Some (h', if String.eqb (response_mode r) "streaming"
            then RStream url data
            else RBlocking (_blocking_request post url data h')).
Proof.
  intros Hreq Hd. unfold chat_dify. rewrite Hreq, Hd.
  cbn [mbind option_bind]. unfold alloc. by destruct (String.eqb _ _).
Qed.

Lemma asdict_DifyRequest_keys (h : heap) (r : DifyRequest)
    (d : gmap string pyval) :
  asdict_DifyRequest h r = Some d →
  dom d = {["query"; "user"; "conversation_id"; "inputs"; "response_mode"]}
  ∧ d !! "agent_id" = None
  ∧ d !! "query" = Some (PStr (query r))
  ∧ d !! "user" = Some (PStr (user r))
  ∧ d !! "conversation_id" = Some (PStr (conversation_id r))
  ∧ d !! "response_mode" = Some (PStr (response_mode r))
  ∧ asdict_inputs h (inputs r) = d !! "inputs".
Proof.
  unfold asdict_DifyRequest.
  destruct (asdict_inputs h (inputs r)) as [i|]; [|done].
  intros [= <-].
  split; [by rewrite !dom_insert_L, dom_empty_L, union_empty_r_L|].
  repeat split; by simplify_map_eq.
Qed.

(** X16: the OpenAI adapter.  The agent goes into the query string of
    [/api/v1/openai/chat/completions] and not into the body: the payload
    is a new dict with exactly the five fields of the request, the
    messages in their order as dicts of [role] and [content], and an
    unset [max_tokens] as an explicit [None].  The streaming path is
    taken exactly when [request.stream] is true. *)
Theorem chat_openai_spec
    (self : DataFlowClient) (post : post_fn) (h : heap) (agent_id : string)
    (request : loc) (r : OpenAIRequest) :
  h !! request = Some (OOpenAIRequest r) →
  ∃ h' res data d,
    chat_openai self post h agent_id request = Some (h', res)
    ∧ (res = RStream (base_url self
                      +:+ "/api/v1/openai/chat/completions?agent_id="
                      +:+ agent_id) data
       ∨ res = RBlocking
                 (_blocking_request post
                    (base_url self
                     +:+ "/api/v1/openai/chat/completions?agent_id="
                     +:+ agent_id) data h'))
    ∧ has_query (base_url self
                 +:+ "/api/v1/openai/chat/completions?agent_id="
                 +:+ agent_id) = true
    ∧ is_stream res = stream r
    ∧ h !! data = None
    ∧ h' !! data = Some (ODict d)
    ∧ dom d = {["messages"; "model"; "max_tokens"; "temperature"; "stream"]}
    ∧ d !! "agent_id" = None
    ∧ d !! "messages" = Some (PList (asdict_ChatMessage <$> messages r))
    ∧ d !! "max_tokens" = Some (from_option PInt PNone (max_tokens r)).
Proof.
  intros Hreq.
  eexists _, _, (fresh (dom h)), (asdict_OpenAIRequest r).
  split; [exact (chat_openai_unfold self post h agent_id request r Hreq)|].
  split; [destruct (stream r); [by left|by right]|].
  split; [by apply has_query_agent|].
  split; [by destruct (stream r)|].
  split; [apply not_elem_of_dom, is_fresh|].
  split; [apply lookup_insert_eq|].
  unfold asdict_OpenAIRequest.
  split; [by rewrite !dom_insert_L, dom_empty_L, union_empty_r_L|].
  repeat split; by simplify_map_eq.
Qed.

(** A default [OpenAIRequest] with one message takes the blocking
    path. *)
Lemma chat_openai_sample :
  ∃ h' res,
    chat_openai sample_client unreachable
      (OpenAIRequest_new ∅ [{| role := "user"; content := "hi" |}]
         None None None None).1 "A1"
      (OpenAIRequest_new ∅ [{| role := "user"; content := "hi" |}]
         None None None None).2 = Some (h', res)
    ∧ is_stream res = false.
Proof.
  assert ((OpenAIRequest_new ∅ [{| role := "user"; content := "hi" |}]
             None None None None).1
          !! (OpenAIRequest_new ∅ [{| role := "user"; content := "hi" |}]
                None None None None).2
          = Some (OOpenAIRequest
                    {| messages := [{| role := "user"; content := "hi" |}];
                       model := "gpt-3.5-turbo"; max_tokens := None;
                       temperature := (7 # 10)%Q; stream := false |}))
    as Hreq by reflexivity.
  destruct (chat_openai_spec sample_client unreachable _ "A1" _ _ Hreq)
    as (h' & res & data & d & Hchat & _ & _ & Hstream & _).
  by exists h', res.
Defined.

(** X17: the Dify chat adapter.  The agent goes into the query string
    of [/api/v1/dify/chat-messages] and not into the body: the payload is
    a new dict with exactly the five fields of the request.  The
    streaming path is taken exactly when [response_mode] is the string
    ["streaming"]. *)
Theorem chat_dify_spec
    (self : DataFlowClient) (post : post_fn) (h : heap) (agent_id : string)
    (request : loc) (r : DifyRequest) :
  h !! request = Some (ODifyRequest r) →
  is_Some (asdict_inputs h (inputs r)) →
  ∃ h' res data d,
    chat_dify self post h agent_id request = Some (h', res)
    ∧ (res = RStream (base_url self +:+ "/api/v1/dify/chat-messages?agent_id="
                      +:+ agent_id) data
       ∨ res = RBlocking
                 (_blocking_request post
                    (base_url self +:+ "/api/v1/dify/chat-messages?agent_id="
                     +:+ agent_id) data h'))
    ∧ has_query (base_url self +:+ "/api/v1/dify/chat-messages?agent_id="
                 +:+ agent_id) = true
    ∧ (is_stream res = true ↔ response_mode r = "streaming")
    ∧ h !! data = None
    ∧ h' !! data = Some (ODict d)
    ∧ dom d = {["query"; "user"; "conversation_id"; "inputs"; "response_mode"]}
    ∧ d !! "agent_id" = None
    ∧ d !! "query" = Some (PStr (query r))
    ∧ d !! "user" = Some (PStr (user r)).
Proof.
  intros Hreq Hin.
  destruct (asdict_DifyRequest_is_Some _ _ Hin) as [d Hd].
  destruct (asdict_DifyRequest_keys _ _ _ Hd)
    as (Hdom & Hagent & Hq & Hu & _).
  eexists _, _, (fresh (dom h)), d.
  split; [exact (chat_dify_unfold self post h agent_id request r d Hreq Hd)|].
  split; [destruct (String.eqb _ _); [by left|by right]|].
  split; [by apply has_query_agent|].
  split.
  { destruct (String.eqb_spec (response_mode r) "streaming") as [->|Hne];
      cbn [is_stream]; [done|]. split; [discriminate|done]. }
  split; [apply not_elem_of_dom, is_fresh|].
  split; [apply lookup_insert_eq|]. done.
Qed.

(** A request in mode ["Streaming"], with a capital, is blocking. *)
Lemma chat_dify_capital_mode :
  ∃ h' res,
    chat_dify sample_client unreachable
      (DifyRequest_new ∅ "q" "u" None None (Some "Streaming")).1 "A1"
      (DifyRequest_new ∅ "q" "u" None None (Some "Streaming")).2
    = Some (h', res)
    ∧ is_stream res = false.
Proof.
  assert ((DifyRequest_new ∅ "q" "u" None None (Some "Streaming")).1
          !! (DifyRequest_new ∅ "q" "u" None None (Some "Streaming")).2
          = Some (ODifyRequest
                    {| query := "q"; user := "u"; conversation_id := "";
                       inputs := Some 2%positive;
                       response_mode := "Streaming" |})) as Hreq
    by reflexivity.
  destruct (chat_dify_spec sample_client unreachable _ "A1" _ _ Hreq
              ltac:(by eexists))
    as (h' & res & data & d & Hchat & _ & _ & Hstream & _).
  exists h', res. split; [exact Hchat|].
  destruct (is_stream res); [|done].
  discriminate (proj1 Hstream eq_refl).
Defined.

(** X18: on the same request the workflow adapter and the Dify chat
    adapter take the same path and build the same payload, except that
    the workflow payload has the additional key [agent_id]; both leave
    the rest of the store alike. *)
Theorem chat_dify_workflow_vs_chat_dify
    (self : DataFlowClient) (post : post_fn) (h : heap) (agent_id : string)
    (request : loc) (h1 h2 : heap) (res1 res2 : chat_result) :
  chat_dify self post h agent_id request = Some (h1, res1) →
  chat_dify_workflow self post h agent_id request = Some (h2, res2) →
  is_stream res1 = is_stream res2
  ∧ ∃ data d,
      h !! data = None
      ∧ h1 !! data = Some (ODict d)
      ∧ d !! "agent_id" = None
      ∧ h2 !! data = Some (ODict (<["agent_id" := PStr agent_id]> d))
      ∧ (∀ l, l ≠ data → h1 !! l = h2 !! l).
Proof.
  intros H1 H2.
  destruct (h !! request) as [[d|r|r]|] eqn:Hreq;
    try (unfold chat_dify in H1; by rewrite Hreq in H1).
  destruct (asdict_DifyRequest h r) as [d|] eqn:Hd;
    [|unfold chat_dify in H1; by rewrite Hreq, Hd in H1].
  rewrite (chat_dify_unfold _ _ _ _ _ _ _ Hreq Hd) in H1.
  rewrite (chat_dify_workflow_unfold _ _ _ _ _ _ _ Hreq Hd) in H2.
  injection H1 as <- <-. injection H2 as <- <-.
  split; [by destruct (String.eqb _ _)|].
  exists (fresh (dom h)), d.
  split; [apply not_elem_of_dom, is_fresh|].
  split; [apply lookup_insert_eq|].
  split; [by destruct (asdict_DifyRequest_keys _ _ _ Hd) as (_ & ? & _)|].
  split; [apply lookup_insert_eq|].
  intros l Hl. by rewrite !lookup_insert_ne.
Qed.

(** Both adapters on a default request. *)
Lemma chat_dify_workflow_vs_chat_dify_sample :
  ∃ h1 res1 h2 res2,
    chat_dify sample_client unreachable
      (DifyRequest_new ∅ "q" "u" None None None).1 "A1"
      (DifyRequest_new ∅ "q" "u" None None None).2 = Some (h1, res1)
    ∧ chat_dify_workflow sample_client unreachable
        (DifyRequest_new ∅ "q" "u" None None None).1 "A1"
        (DifyRequest_new ∅ "q" "u" None None None).2 = Some (h2, res2)
    ∧ is_stream res1 = is_stream res2.
Proof.
  destruct (chat_dify sample_client unreachable
              (DifyRequest_new ∅ "q" "u" None None None).1 "A1"
              (DifyRequest_new ∅ "q" "u" None None None).2)
    as [[h1 res1]|] eqn:H1; [|by vm_compute in H1].
  destruct (chat_dify_workflow sample_client unreachable
              (DifyRequest_new ∅ "q" "u" None None None).1 "A1"
              (DifyRequest_new ∅ "q" "u" None None None).2)
    as [[h2 res2]|] eqn:H2; [|by vm_compute in H2].
  exists h1, res1, h2, res2. split; [done|]. split; [done|].
  exact (proj1 (chat_dify_workflow_vs_chat_dify _ _ _ _ _ _ _ _ _ H1 H2)).
Defined.

(** What [chat_universal] does on a dict. *)
Lemma chat_universal_unfold (self : DataFlowClient) (post : post_fn)
    (h : heap) (agent_id : string) (data : loc) (d : gmap string pyval) :
  h !! data = Some (ODict d) →
  let url := base_url self +:+ "/api/v1/chat" in
  let h' := <[data := ODict (<["agent_id" := PStr agent_id]> d)]> h in
  chat_universal self post h agent_id data =
  Some (h',
        if truthy (dict_get d "stream" (PBool false))
           || py_eq_str (dict_get d "response_mode" PNone) "streaming"
        then RStream url data
        else RBlocking (_blocking_request post url data h')).
Proof.
  intros Hdata. unfold chat_universal. rewrite Hdata.
  rewrite truthy_py_or. unfold dict_get.
  rewrite !lookup_insert_ne by done.
  by destruct (truthy _ || _).
Qed.

(** X19: the universal adapter called again on the same dict.  The
    second call overwrites the [agent_id] the first one wrote and leaves
    the dict as a single call with the second agent would; the path taken
    is the same in both calls, whatever the agents. *)
Theorem chat_universal_twice
    (self : DataFlowClient) (post1 post2 : post_fn) (h : heap)
    (a1 a2 : string) (data : loc) (d : gmap string pyval)
    (h1 h2 : heap) (r1 r2 : chat_result) :
  h !! data = Some (ODict d) →
  chat_universal self post1 h a1 data = Some (h1, r1) →
  chat_universal self post2 h1 a2 data = Some (h2, r2) →
  h2 = <[data := ODict (<["agent_id" := PStr a2]> d)]> h
  ∧ is_stream r1 = is_stream r2.
Proof.
  intros Hdata H1 H2.
  rewrite (chat_universal_unfold _ _ _ _ _ _ Hdata) in H1.
  injection H1 as <- <-.
  rewrite (chat_universal_unfold _ _ _ _ _ (<["agent_id" := PStr a1]> d))
    in H2 by apply lookup_insert_eq.
  injection H2 as <- <-.
  split; [by rewrite insert_insert_eq, insert_insert_eq|].
  unfold dict_get. rewrite !lookup_insert_ne by done.
  by destruct (truthy _ || _).
Qed.

(** Two universal calls on a streaming payload. *)
Lemma chat_universal_twice_sample :
  ∃ h1 r1 h2 r2,
    chat_universal sample_client unreachable
      (<[1%positive := ODict (<["stream" := PBool true]> ∅)]> ∅)
      "A1" 1%positive = Some (h1, r1)
    ∧ chat_universal sample_client unreachable h1 "A2" 1%positive
      = Some (h2, r2)
    ∧ h2 = <[1%positive := ODict (<["agent_id" := PStr "A2"]>
                                    (<["stream" := PBool true]> ∅))]>
             (<[1%positive := ODict (<["stream" := PBool true]> ∅)]> ∅).
Proof.
  assert ((<[1%positive := ODict (<["stream" := PBool true]> ∅)]> ∅ : heap)
          !! 1%positive = Some (ODict (<["stream" := PBool true]> ∅)))
    as Hdata by reflexivity.
  destruct (chat_universal sample_client unreachable
              (<[1%positive := ODict (<["stream" := PBool true]> ∅)]> ∅)
              "A1" 1%positive) as [[h1 r1]|] eqn:H1;
    [|by vm_compute in H1].
  destruct (chat_universal sample_client unreachable h1 "A2" 1%positive)
    as [[h2 r2]|] eqn:H2.
  - exists h1, r1, h2, r2. split; [done|]. split; [done|].
    exact (proj1 (chat_universal_twice _ _ _ _ _ _ _ _ _ _ _ _ Hdata H1 H2)).
  - rewrite (chat_universal_unfold _ _ _ _ _ _ Hdata) in H1.
    injection H1 as <- _.
    rewrite (chat_universal_unfold _ _ _ _ _
               (<["agent_id" := PStr "A1"]> (<["stream" := PBool true]> ∅)))
      in H2 by apply lookup_insert_eq.
    discriminate H2.
Defined.

(** ** More on the construction of a [DifyRequest] *)

(** Construction with an [inputs] dict: one new object, holding the
    reference it was given. *)
Lemma DifyRequest_new_given (h : heap) (q u : string) (c : option string)
    (l : loc) (m : option string) :
  DifyRequest_new h q u c (Some (Some l)) m =
  (<[fresh (dom h) :=
       ODifyRequest {| query := q; user := u;
                       conversation_id := default "" c;
                       inputs := Some l;
                       response_mode := default "blocking" m |}]> h,
   fresh (dom h)).
Proof.
  unfold DifyRequest_new, alloc, DifyRequest__post_init__.
  by rewrite lookup_insert_eq.
Qed.

(** Construction without [inputs]: the request and, after it, an empty
    dict of its own. *)
Lemma DifyRequest_new_default (h : heap) (q u : string) (c : option string)
    (i : option (option loc)) (m : option string) :
  default None i = None →
  let self := fresh (dom h) in
  let r0 := {| query := q; user := u; conversation_id := default "" c;
               inputs := None; response_mode := default "blocking" m |} in
  let d := fresh (dom (<[self := ODifyRequest r0]> h)) in
  DifyRequest_new h q u c i m =
  (<[self := ODifyRequest
               {| query := q; user := u; conversation_id := default "" c;
                  inputs := Some d;
                  response_mode := default "blocking" m |}]>
     (<[d := ODict ∅]> (<[self := ODifyRequest r0]> h)),
   self).
Proof.
  intros Hi. unfold DifyRequest_new, alloc, DifyRequest__post_init__.
  rewrite Hi. by rewrite lookup_insert_eq.
Qed.

(** X20: a [DifyRequest] constructed with an [inputs] dict holds the
    caller's dict itself: construction allocates the request only and
    copies nothing.  What the caller writes into the dict afterwards is
    what [chat_dify] sends, in a payload dict that is neither the
    caller's dict nor the request; the call leaves the caller's dict as
    it found it. *)
Theorem DifyRequest_inputs_by_reference
    (self : DataFlowClient) (post : post_fn) (h : heap) (q u : string)
    (c : option string) (l : loc) (m : option string) (agent_id : string)
    (d d2 : gmap string pyval) :
  h !! l = Some (ODict d) →
  ∃ r,
    (DifyRequest_new h q u c (Some (Some l)) m).1
      = <[(DifyRequest_new h q u c (Some (Some l)) m).2 := ODifyRequest r]> h
    ∧ h !! (DifyRequest_new h q u c (Some (Some l)) m).2 = None
    ∧ inputs r = Some l
    ∧ ∃ h2 res data payload,
        chat_dify self post
          (<[l := ODict d2]> (DifyRequest_new h q u c (Some (Some l)) m).1)
          agent_id (DifyRequest_new h q u c (Some (Some l)) m).2
        = Some (h2, res)
        ∧ h2 !! data = Some (ODict payload)
        ∧ payload !! "inputs" = Some (PDict d2)
        ∧ data ≠ l
        ∧ data ≠ (DifyRequest_new h q u c (Some (Some l)) m).2
        ∧ h2 !! l = Some (ODict d2).
Proof.
  intros Hl. rewrite DifyRequest_new_given. cbn [fst snd].
  set (self_loc := fresh (dom h)).
  set (r := {| query := q; user := u; conversation_id := default "" c;
               inputs := Some l; response_mode := default "blocking" m |}).
  assert (h !! self_loc = None) as Hfresh by apply not_elem_of_dom, is_fresh.
  assert (self_loc ≠ l) as Hne by (intros ->; by rewrite Hl in Hfresh).
  exists r. split; [done|]. split; [done|]. split; [done|].
  set (h1 := <[l := ODict d2]> (<[self_loc := ODifyRequest r]> h)).
  assert (h1 !! self_loc = Some (ODifyRequest r)) as Hreq.
  { unfold h1. rewrite lookup_insert_ne by done. apply lookup_insert_eq. }
  assert (h1 !! l = Some (ODict d2)) as Hl1 by apply lookup_insert_eq.
  assert (asdict_DifyRequest h1 r
          = Some (<["query" := PStr q]>
                 (<["user" := PStr u]>
                 (<["conversation_id" := PStr (default "" c)]>
                 (<["inputs" := PDict d2]>
                 (<["response_mode" := PStr (default "blocking" m)]> ∅))))))
    as Hd.
  { unfold asdict_DifyRequest, asdict_inputs. cbn [inputs r]. by rewrite Hl1. }
  assert (h1 !! fresh (dom h1) = None) as Hdata
    by apply not_elem_of_dom, is_fresh.
  eexists _, _, (fresh (dom h1)), _.
  split; [exact (chat_dify_unfold self post h1 agent_id self_loc r _ Hreq Hd)|].
  split; [apply lookup_insert_eq|].
  split; [by simplify_map_eq|].
  split; [intros Heq; by rewrite Heq, Hl1 in Hdata|].
  split; [intros Heq; by rewrite Heq, Hreq in Hdata|].
  rewrite lookup_insert_ne; [done|].
  intros Heq. by rewrite Heq, Hl1 in Hdata.
Qed.

(** A request built on a dict that the caller fills afterwards. *)
Lemma DifyRequest_inputs_by_reference_sample :
  ∃ h2 res data payload,
    chat_dify sample_client unreachable
      (<[1%positive := ODict (<["k" := PInt 1]> ∅)]>
         (DifyRequest_new (<[1%positive := ODict ∅]> ∅) "q" "u" None
            (Some (Some 1%positive)) None).1)
      "A1"
      (DifyRequest_new (<[1%positive := ODict ∅]> ∅) "q" "u" None
         (Some (Some 1%positive)) None).2
    = Some (h2, res)
    ∧ h2 !! data = Some (ODict payload)
    ∧ payload !! "inputs" = Some (PDict (<["k" := PInt 1]> ∅)).
Proof.
  assert ((<[1%positive := ODict ∅]> ∅ : heap) !! 1%positive
          = Some (ODict ∅)) as Hl by reflexivity.
  destruct (DifyRequest_inputs_by_reference sample_client unreachable
              _ "q" "u" None 1%positive None "A1" ∅ (<["k" := PInt 1]> ∅) Hl)
    as (r & _ & _ & _ & h2 & res & data & payload & Hchat & Hdata & Hin & _).
  by exists h2, res, data, payload.
Defined.

(** X21: two requests constructed without [inputs] do not share their
    [inputs] dict: each has an empty dict of its own, and the two dicts
    and the two requests are four different objects. *)
Theorem DifyRequest_default_inputs_not_shared
    (h : heap) (q1 u1 q2 u2 : string) (c1 c2 : option string)
    (i1 i2 : option (option loc)) (m1 m2 : option string) :
  default None i1 = None →
  default None i2 = None →
  ∃ o1 o2 d1 d2,
    let s1 := DifyRequest_new h q1 u1 c1 i1 m1 in
    let s2 := DifyRequest_new s1.1 q2 u2 c2 i2 m2 in
    s2.1 !! s1.2 = Some (ODifyRequest o1)
    ∧ s2.1 !! s2.2 = Some (ODifyRequest o2)
    ∧ inputs o1 = Some d1
    ∧ inputs o2 = Some d2
    ∧ s2.1 !! d1 = Some (ODict ∅)
    ∧ s2.1 !! d2 = Some (ODict ∅)
    ∧ d1 ≠ d2
    ∧ s1.2 ≠ s2.2.
Proof.
  intros Hi1 Hi2. cbv zeta.
  rewrite (DifyRequest_new_default h q1 u1 c1 i1 m1 Hi1). cbn [fst snd].
  set (r1 := fresh (dom h)).
  set (o1' := {| query := q1; user := u1; conversation_id := default "" c1;
                 inputs := None; response_mode := default "blocking" m1 |}).
  set (d1 := fresh (dom (<[r1 := ODifyRequest o1']> h))).
  set (o1 := {| query := q1; user := u1; conversation_id := default "" c1;
                inputs := Some d1; response_mode := default "blocking" m1 |}).
  set (h1 := <[r1 := ODifyRequest o1]>
               (<[d1 := ODict ∅]> (<[r1 := ODifyRequest o1']> h))).
  assert (d1 ≠ r1) as Hne1.
  { intros Heq.
    pose proof (is_fresh (dom (<[r1 := ODifyRequest o1']> h))) as Hf.
    fold d1 in Hf. rewrite Heq in Hf. apply Hf.
    apply elem_of_dom. by rewrite lookup_insert_eq. }
  assert (h1 !! r1 = Some (ODifyRequest o1)) as Hr1 by apply lookup_insert_eq.
  assert (h1 !! d1 = Some (ODict ∅)) as Hd1.
  { unfold h1. rewrite lookup_insert_ne by done. apply lookup_insert_eq. }
  rewrite (DifyRequest_new_default h1 q2 u2 c2 i2 m2 Hi2). cbn [fst snd].
  set (r2 := fresh (dom h1)).
  set (o2' := {| query := q2; user := u2; conversation_id := default "" c2;
                 inputs := None; response_mode := default "blocking" m2 |}).
  set (d2 := fresh (dom (<[r2 := ODifyRequest o2']> h1))).
  assert (h1 !! r2 = None) as Hr2 by apply not_elem_of_dom, is_fresh.
  assert ((<[r2 := ODifyRequest o2']> h1) !! d2 = None) as Hd2
    by apply not_elem_of_dom, is_fresh.
  assert (d2 ≠ r2) as Hne2.
  { intros Heq. rewrite Heq in Hd2. by rewrite lookup_insert_eq in Hd2. }
  rewrite lookup_insert_ne in Hd2 by done.
  assert (r1 ≠ r2) as Hrr by (intros Heq; by rewrite <- Heq, Hr1 in Hr2).
  assert (d1 ≠ r2) as Hdr by (intros Heq; by rewrite <- Heq, Hd1 in Hr2).
  assert (r1 ≠ d2) as Hrd by (intros Heq; by rewrite <- Heq, Hr1 in Hd2).
  assert (d1 ≠ d2) as Hdd by (intros Heq; by rewrite <- Heq, Hd1 in Hd2).
  eexists o1, _, d1, d2.
  split; [by rewrite !lookup_insert_ne|].
  split; [apply lookup_insert_eq|].
  split; [done|]. split; [done|].
  split; [by rewrite !lookup_insert_ne|].
  split; [by rewrite lookup_insert_ne, lookup_insert_eq|].
  done.
Qed.

(** Two default requests. *)
Lemma DifyRequest_default_inputs_not_shared_sample :
  ∃ o1 o2 d1 d2,
    (DifyRequest_new (DifyRequest_new ∅ "a" "u" None None None).1
       "b" "u" None None None).1
      !! (DifyRequest_new ∅ "a" "u" None None None).2
      = Some (ODifyRequest o1)
    ∧ (DifyRequest_new (DifyRequest_new ∅ "a" "u" None None None).1
         "b" "u" None None None).1
        !! (DifyRequest_new (DifyRequest_new ∅ "a" "u" None None None).1
              "b" "u" None None None).2
      = Some (ODifyRequest o2)
    ∧ inputs o1 = Some d1 ∧ inputs o2 = Some d2 ∧ d1 ≠ d2.
Proof.
  destruct (DifyRequest_default_inputs_not_shared ∅ "a" "u" "b" "u"
              None None None None None None eq_refl eq_refl)
    as (o1 & o2 & d1 & d2 & H1 & H2 & Hi1 & Hi2 & _ & _ & Hne & _).
  by exists o1, o2, d1, d2.
Defined.

(** ** Streaming calls are lazy; both handlers build the same envelope *)

(** X22: a public operation that takes the streaming path does not
    contact the server: the generator it hands back and the store it
    leaves are the same whatever the server would answer.  The POST is
    made when the generator is first advanced. *)
Theorem chat_stream_is_lazy
    (t : chat_type) (self : DataFlowClient) (post1 post2 : post_fn)
    (h : heap) (agent_id : string) (arg : loc) (h' : heap) (url : string)
    (data : loc) :
  chat t self post1 h agent_id arg = Some (h', RStream url data) →
  chat t self post2 h agent_id arg = Some (h', RStream url data).
Proof.
  destruct t; cbn [chat].
  - unfold chat_openai. destruct (h !! arg) as [[d|q|q]|]; try done.
    unfold alloc. by destruct (stream q).
  - unfold chat_dify. destruct (h !! arg) as [[d|q|q]|]; try done.
    destruct (asdict_DifyRequest h q) as [d|]; [|done].
    cbn [mbind option_bind]. unfold alloc. by destruct (String.eqb _ _).
  - unfold chat_dify_workflow. destruct (h !! arg) as [[d|q|q]|]; try done.
    destruct (asdict_DifyRequest h q) as [d|]; [|done].
    cbn [mbind option_bind]. unfold alloc. by destruct (String.eqb _ _).
  - unfold chat_universal. destruct (h !! arg) as [[d|q|q]|]; try done.
    by destruct (truthy _).
Qed.

(** A streaming universal call, against an unreachable host and against
    a server that answers 200. *)
Lemma chat_stream_is_lazy_sample :
  chat TUniversal sample_client
    (always (PostReturns (stream_response 200 sample_lines None)))
    (<[1%positive := ODict (<["stream" := PBool true]> ∅)]> ∅)
    "A1" 1%positive
  = Some (<[1%positive := ODict (<["agent_id" := PStr "A1"]>
                                   (<["stream" := PBool true]> ∅))]>
            (<[1%positive := ODict (<["stream" := PBool true]> ∅)]> ∅),
          RStream "http://localhost:8082/api/v1/chat" 1%positive).
Proof.
  apply (chat_stream_is_lazy TUniversal sample_client unreachable).
  reflexivity.
Defined.

(** X23: the two handlers build the same envelope but for its type.
    For one and the same RequestException raised by the POST, the
    blocking request returns and the streaming request yields envelopes
    with the same [message] and the same [status_code]; the type is
    [request_failed] for the one and [stream_failed] for the other. *)
Theorem blocking_and_stream_envelopes_agree
    (J : Type) (json_loads : Text.text → option J) (post : post_fn)
    (url : string) (data : loc) (h : heap) (e : exn) :
  post url data false h = PostRaises e →
  post url data true h = PostRaises e →
  is_RequestException (exn_cls e) = true →
  ∃ err1 err2,
    _blocking_request post url data h
      = Ret (PDict (<["error" := PDict err1]> ∅))
    ∧ _stream_request json_loads post url data h
      = GYield (ErrorEnvelope (PDict (<["error" := PDict err2]> ∅))) GStop
    ∧ err1 !! "type" = Some (PStr "request_failed")
    ∧ err2 !! "type" = Some (PStr "stream_failed")
    ∧ (∀ k, k ≠ "type" → err1 !! k = err2 !! k)
    ∧ err1 !! "message" = Some (PStr (exn_message e)).
Proof.
  intros Hb Hs Hcls.
  exists (error_dict "request_failed" e), (error_dict "stream_failed" e).
  split.
  { apply blocking_request_caught; [|done].
    unfold blocking_body. by rewrite Hb. }
  split.
  { unfold _stream_request, stream_body. rewrite Hs.
    cbn [except_RequestException]. by rewrite Hcls. }
  unfold error_dict.
  split; [apply lookup_insert_eq|]. split; [apply lookup_insert_eq|].
  split; [intros k Hk; by rewrite !(lookup_insert_ne _ "type")|].
  by rewrite lookup_insert_ne, lookup_insert_eq.
Qed.

(** Both requests against an unreachable host. *)
Lemma blocking_and_stream_envelopes_sample :
  ∃ err1 err2,
    _blocking_request unreachable "http://localhost:8082/api/v1/chat"
      1%positive ∅ = Ret (PDict (<["error" := PDict err1]> ∅))
    ∧ _stream_request MiniJson.loads unreachable
        "http://localhost:8082/api/v1/chat" 1%positive ∅
      = GYield (ErrorEnvelope (PDict (<["error" := PDict err2]> ∅))) GStop
    ∧ err1 !! "status_code" = err2 !! "status_code".
Proof.
  destruct (blocking_and_stream_envelopes_agree MiniJson.json MiniJson.loads
              unreachable "http://localhost:8082/api/v1/chat" 1%positive ∅
              (Exn ConnectionError "connection refused" None)
              eq_refl eq_refl eq_refl)
    as (err1 & err2 & Hb & Hs & _ & _ & Hsame & _).
  exists err1, err2. split; [exact Hb|]. split; [exact Hs|].
  by apply Hsame.
Defined.

(** ** The callers' test for failure *)

(** X24: the test ["error" in response] of the callers is true of every
    value the [except] handlers of the client build: the envelope
    returned by a blocking request, the envelope yielded by a streaming
    request, and the dicts returned by the health check and the service
    information on failure. *)
Theorem error_key_in_every_failure_value
    (J : Type) (json_loads : Text.text → option J) (self : DataFlowClient)
    (post : post_fn) (get : get_fn) (url : string) (data : loc) (h : heap) :
  (∀ e, blocking_body post url data h = Exc e →
        is_RequestException (exn_cls e) = true →
        ∃ v, _blocking_request post url data h = Ret v
             ∧ py_contains "error" v = Ret true)
  ∧ (∀ v, v ∈ envelopes (_stream_request json_loads post url data h) →
          py_contains "error" v = Ret true)
  ∧ (∀ e, get_body get (base_url self +:+ "/api/v1/health") = Exc e →
          is_RequestException (exn_cls e) = true →
          ∃ v, health_check self get = Ret v
               ∧ py_contains "error" v = Ret true)
  ∧ (∀ e, get_body get (base_url self +:+ "/") = Exc e →
          is_RequestException (exn_cls e) = true →
          ∃ v, get_service_info self get = Ret v
               ∧ py_contains "error" v = Ret true).
Proof.
  repeat split.
  - intros e Hbody Hcls. eexists.
    split; [by apply blocking_request_caught|].
    cbn [py_contains error_envelope]. rewrite lookup_insert_eq.
    by rewrite bool_decide_eq_true_2 by (by eexists).
  - intros v. pose proof (stream_body_envelopes json_loads post url data h)
      as Hnone.
    unfold _stream_request, envelopes in *.
    rewrite except_yielded, omap_app, Hnone.
    destruct (escaped _) as [e|]; [|by intros ?%elem_of_nil].
    destruct (is_RequestException (exn_cls e)); [|by intros ?%elem_of_nil].
    cbn. intros ->%list_elem_of_singleton.
    cbn [py_contains error_envelope]. rewrite lookup_insert_eq.
    by rewrite bool_decide_eq_true_2 by (by eexists).
  - intros e Hbody Hcls. unfold health_check. rewrite Hbody, Hcls.
    eexists. split; [done|]. cbn [py_contains]. rewrite lookup_insert_eq.
    by rewrite bool_decide_eq_true_2 by (by eexists).
  - intros e Hbody Hcls. unfold get_service_info. rewrite Hbody, Hcls.
    eexists. split; [done|]. cbn [py_contains]. rewrite lookup_insert_eq.
    by rewrite bool_decide_eq_true_2 by (by eexists).
Qed.

(** The test on the answer of an unreachable host. *)
Lemma error_key_in_unreachable :
  ∃ v, _blocking_request unreachable "http://localhost:8082/api/v1/chat"
         1%positive ∅ = Ret v
       ∧ py_contains "error" v = Ret true.
Proof.
  exact (proj1 (error_key_in_every_failure_value MiniJson.json MiniJson.loads
                  sample_client unreachable (λ _, PostRaises
                     (Exn ConnectionError "connection refused" None))
                  "http://localhost:8082/api/v1/chat" 1%positive ∅)
               (Exn ConnectionError "connection refused" None)
               eq_refl eq_refl).
Defined.
